(** * java_util_zip_Deflater.cpp: the native half of java.util.zip.Deflater

    A shallow embedding of luni/src/main/native/java_util_zip_Deflater.cpp.
    The native methods run against three stores: the JNI environment (the
    pending exception and the fields of the Java-side Deflater objects), the
    native heap holding the NativeZipStream objects that handles point to, and
    the byte memory that the compression engine reads and writes.  The
    engine (zlib) is outside the file: it is an interface whose functions take
    the z_stream by value and give back the status and the updated stream.
    Deflater_setDictionaryImpl and Deflater_setInputImpl only forward to
    members of NativeZipStream (zip.h) and are left out. *)

From Stdlib Require Import ZArith String List Lia.
From stdpp Require Import base option gmap.

Local Open Scope Z_scope.

(** ** Machine integers

  jint and jlong are two's complement, uInt is unsigned; a conversion keeps
  the low bits. *)
Module MachineInt.

Definition wrap_signed (bits x : Z) : Z :=
  (x + 2 ^ (bits - 1)) mod 2 ^ bits - 2 ^ (bits - 1).

Definition wrap_unsigned (bits x : Z) : Z := x mod 2 ^ bits.

Definition to_jint (x : Z) : Z := wrap_signed 32 x.
Definition to_jlong (x : Z) : Z := wrap_signed 64 x.
Definition to_uInt (x : Z) : Z := wrap_unsigned 32 x.

Definition is_jint (x : Z) : Prop := - 2 ^ 31 <= x < 2 ^ 31.

End MachineInt.
Export MachineInt.

(** ** zlib.h: what the adapter sees of the engine *)
Module Zlib.

Definition Z_OK : Z := 0.
Definition Z_STREAM_END : Z := 1.
Definition Z_NEED_DICT : Z := 2.
Definition Z_ERRNO : Z := -1.
Definition Z_STREAM_ERROR : Z := -2.
Definition Z_DATA_ERROR : Z := -3.
Definition Z_MEM_ERROR : Z := -4.
Definition Z_BUF_ERROR : Z := -5.
Definition Z_VERSION_ERROR : Z := -6.

Definition Z_NO_FLUSH : Z := 0.
Definition Z_SYNC_FLUSH : Z := 2.
Definition Z_FULL_FLUSH : Z := 3.
Definition Z_FINISH : Z := 4.

Definition Z_DEFLATED : Z := 8.
(** The defaults named in the comment of Deflater_createStream:
    windowBits=15 and memLevel=8. *)
Definition DEF_WBITS : Z := 15.
Definition DEF_MEM_LEVEL : Z := 8.

(** z_stream: cursors are addresses, [state] is the engine's private
    working state. *)
Record z_stream {internal_state : Type} := mk_z_stream {
  next_in : Z;
  avail_in : Z;
  total_in : Z;
  next_out : Z;
  avail_out : Z;
  total_out : Z;
  adler : Z;
  state : internal_state
}.
Arguments z_stream : clear implicits.
Arguments mk_z_stream {internal_state}.

Definition set_next_out {I} (v : Z) (s : z_stream I) : z_stream I :=
  mk_z_stream (next_in s) (avail_in s) (total_in s) v (avail_out s)
              (total_out s) (adler s) (state s).

Definition set_avail_out {I} (v : Z) (s : z_stream I) : z_stream I :=
  mk_z_stream (next_in s) (avail_in s) (total_in s) (next_out s) v
              (total_out s) (adler s) (state s).

(** The engine entry points the adapter calls.  Each takes the stream and
    the byte memory and gives back the status code with both updated. *)
Class Engine (internal_state memory : Type) := {
  deflateInit2 : z_stream internal_state -> Z -> Z -> Z -> Z -> Z -> memory ->
                 Z * z_stream internal_state * memory;
  deflate : z_stream internal_state -> Z -> memory ->
            Z * z_stream internal_state * memory;
  deflateReset : z_stream internal_state -> memory ->
                 Z * z_stream internal_state * memory;
  deflateParams : z_stream internal_state -> Z -> Z -> memory ->
                  Z * z_stream internal_state * memory;
  deflateEnd : z_stream internal_state -> memory ->
               Z * z_stream internal_state * memory;
  zError : Z -> string
}.

(** One engine invocation, with the arguments as passed. *)
Inductive EngineCall {internal_state : Type} :=
| Call_deflateInit2 (strm : z_stream internal_state)
                    (level method windowBits memLevel strategy : Z)
| Call_deflate (strm : z_stream internal_state) (flush : Z)
| Call_deflateReset (strm : z_stream internal_state)
| Call_deflateParams (strm : z_stream internal_state) (level strategy : Z)
| Call_deflateEnd (strm : z_stream internal_state).
Arguments EngineCall : clear implicits.

End Zlib.
Export Zlib.

(** ** The runtime side: exceptions, Java objects, native objects *)
Module Jni.

(** References to Java objects and arrays are opaque numbers, 0 for null. *)
Abbreviation jobject := Z (only parsing).
Abbreviation jbyteArray := Z (only parsing).

Record Throwable := mk_Throwable {
  className : string;
  message : option string
}.

(** The two fields of java.util.zip.Deflater written from native code:
    "finished" (Z) and "inRead" (I). *)
Record DeflaterFields := mk_DeflaterFields {
  finished : bool;
  inRead : Z
}.

(** Modelled from the spec: NativeZipStream (zip.h, not among the sources)
    wraps one engine stream context; the file uses its member [stream]
    only. *)
Record NativeZipStream {internal_state : Type} := mk_NativeZipStream {
  stream : z_stream internal_state
}.
Arguments NativeZipStream : clear implicits.
Arguments mk_NativeZipStream {internal_state}.

(** What the file takes from the C++ runtime and from
    ScopedPrimitiveArray.h.
    - [ptr_bits]: the width of uintptr_t;
    - [operator_new]: the address [new NativeZipStream] picks on the
      current native heap, or nothing when it yields NULL;
    - [NativeZipStream_ctor]: the object as its constructor leaves it;
    - [ScopedByteArrayRW]: the buffer-access helper; from the pending
      exception and the array reference it gives the address of the pinned
      bytes ([get()], nothing for NULL) and the pending exception it
      leaves. *)
Class Runtime (internal_state : Type) := {
  ptr_bits : Z;
  sizeof_NativeZipStream : Z;
  operator_new : gmap Z (NativeZipStream internal_state) -> option Z;
  NativeZipStream_ctor : NativeZipStream internal_state;
  ScopedByteArrayRW : option Throwable -> jbyteArray ->
                      option Z * option Throwable
}.

(** The conditions the file raises. *)
Definition OutOfMemoryError : Throwable :=
  mk_Throwable "java/lang/OutOfMemoryError" None.
Definition IllegalArgumentException (msg : string) : Throwable :=
  mk_Throwable "java/lang/IllegalArgumentException" (Some msg).
Definition IllegalStateException (msg : string) : Throwable :=
  mk_Throwable "java/lang/IllegalStateException" (Some msg).
Definition DataFormatException (msg : string) : Throwable :=
  mk_Throwable "java/util/zip/DataFormatException" (Some msg).

End Jni.
Export Jni.

Section Deflater.

Context {internal_state memory : Type}.
Context {engine : Engine internal_state memory}.
Context {runtime : Runtime internal_state}.

(** The state the native methods run against. *)
Record World := mk_World {
  pending : option Throwable;
  objects : gmap jobject DeflaterFields;
  streams : gmap Z (NativeZipStream internal_state);
  mem : memory;
  calls : list (EngineCall internal_state)
}.

Definition with_pending (e : option Throwable) (w : World) : World :=
  mk_World e (objects w) (streams w) (mem w) (calls w).
Definition with_objects (o : gmap jobject DeflaterFields) (w : World) : World :=
  mk_World (pending w) o (streams w) (mem w) (calls w).
Definition with_streams (h : gmap Z (NativeZipStream internal_state))
           (w : World) : World :=
  mk_World (pending w) (objects w) h (mem w) (calls w).

(** A native method either gives a result and a new world, or has no
    defined behaviour (a dangling handle or reference). *)
Definition M (A : Type) : Type := World -> option (A * World).

Definition ret {A} (a : A) : M A := fun w => Some (a, w).

Definition bind {A B} (m : M A) (k : A -> M B) : M B :=
  fun w => match m w with
           | Some (a, w') => k a w'
           | None => None
           end.

Notation "'let*' x ':=' m 'in' k" := (bind m (fun x => k))
  (at level 10, x name, m at level 100, k at level 200).

(** *** JNI services *)

(** Modelled from the spec: jniThrowOutOfMemoryError (JNIHelp, not among the
    sources) leaves an OutOfMemory condition pending. *)
Definition jniThrowOutOfMemoryError : M unit :=
  fun w => Some (tt, with_pending (Some OutOfMemoryError) w).

(** Modelled from the spec: throwExceptionForZlibError (zip.h, not among the
    sources) fails with a condition of the named class carrying the engine's
    diagnostic message for the status. *)
Definition throwExceptionForZlibError (exceptionClassName : string)
           (error : Z) : M unit :=
  fun w => Some (tt, with_pending
                       (Some (mk_Throwable exceptionClassName
                                           (Some (zError error)))) w).

(** env->SetBooleanField(recv, finished, v) *)
Definition SetBooleanField_finished (recv : jobject) (v : bool) : M unit :=
  fun w => match objects w !! recv with
           | Some o => Some (tt, with_objects
                                   (<[recv := mk_DeflaterFields v (inRead o)]>
                                      (objects w)) w)
           | None => None
           end.

(** env->GetIntField(recv, inReadField) *)
Definition GetIntField_inRead (recv : jobject) : M Z :=
  fun w => match objects w !! recv with
           | Some o => Some (inRead o, w)
           | None => None
           end.

(** env->SetIntField(recv, inReadField, v) *)
Definition SetIntField_inRead (recv : jobject) (v : Z) : M unit :=
  fun w => match objects w !! recv with
           | Some o => Some (tt, with_objects
                                   (<[recv := mk_DeflaterFields (finished o) v]>
                                      (objects w)) w)
           | None => None
           end.

(** ScopedByteArrayRW out(env, buf); out.get().  The release of the array
    when [out] goes out of scope touches none of the stores kept here. *)
Definition ScopedByteArrayRW_get (buf : jbyteArray) : M (option Z) :=
  fun w => let '(p, e) := ScopedByteArrayRW (pending w) buf in
           Some (p, with_pending e w).

(** *** The native heap *)

(** Modelled from the spec: toNativeZipStream (zip.h, not among the sources)
    turns the opaque 64-bit handle back into the address it was made from, a
    value of uintptr_t. *)
Definition toNativeZipStream (address : Z) : Z :=
  wrap_unsigned ptr_bits address.

(** new NativeZipStream *)
Definition new_NativeZipStream : M (option Z) :=
  fun w => match operator_new (streams w) with
           | Some p => Some (Some p, with_streams
                                       (<[p := NativeZipStream_ctor]> (streams w)) w)
           | None => Some (None, w)
           end.

(** delete p *)
Definition delete_NativeZipStream (p : Z) : M unit :=
  fun w => match streams w !! p with
           | Some _ => Some (tt, with_streams (delete p (streams w)) w)
           | None => None
           end.

(** p->stream.field *)
Definition read_stream {A} (p : Z) (field : z_stream internal_state -> A) : M A :=
  fun w => match streams w !! p with
           | Some n => Some (field (stream n), w)
           | None => None
           end.

(** p->stream.field = v, with [upd] the field's setter *)
Definition write_stream (p : Z)
           (upd : z_stream internal_state -> z_stream internal_state) : M unit :=
  fun w => match streams w !! p with
           | Some n => Some (tt, with_streams
                                   (<[p := mk_NativeZipStream (upd (stream n))]>
                                      (streams w)) w)
           | None => None
           end.

(** What an engine invocation computes. *)
Definition perform (c : EngineCall internal_state) (m : memory)
  : Z * z_stream internal_state * memory :=
  match c with
  | Call_deflateInit2 s level method windowBits memLevel strategy =>
      deflateInit2 s level method windowBits memLevel strategy m
  | Call_deflate s flush => deflate s flush m
  | Call_deflateReset s => deflateReset s m
  | Call_deflateParams s level strategy => deflateParams s level strategy m
  | Call_deflateEnd s => deflateEnd s m
  end.

(** f(&p->stream, ...): the engine works on the stream in place and on the
    byte memory; the invocation [c], made with the stream as it stands, is
    appended to [calls], and the status is the result. *)
Definition engine_call (p : Z)
           (c : z_stream internal_state -> EngineCall internal_state) : M Z :=
  fun w => match streams w !! p with
           | Some n =>
               let '(err, s', m') := perform (c (stream n)) (mem w) in
               Some (err, mk_World (pending w) (objects w)
                                   (<[p := mk_NativeZipStream s']> (streams w))
                                   m' (calls w ++ [c (stream n)]))
           | None => None
           end.

(** *** The native methods *)

Definition Deflater_getTotalInImpl (handle : Z) : M Z :=
  let* v := read_stream (toNativeZipStream handle) total_in in
  ret (to_jlong v).

Definition Deflater_getTotalOutImpl (handle : Z) : M Z :=
  let* v := read_stream (toNativeZipStream handle) total_out in
  ret (to_jlong v).

Definition Deflater_getAdlerImpl (handle : Z) : M Z :=
  let* v := read_stream (toNativeZipStream handle) adler in
  ret (to_jint v).

Definition Deflater_createStream (level strategy : Z) (noHeader : bool) : M Z :=
  let* jstream := new_NativeZipStream in
  match jstream with
  | None =>
      let* _ := jniThrowOutOfMemoryError in
      ret (-1)
  | Some p =>
      let windowBits := if noHeader then - DEF_WBITS else DEF_WBITS in
      let memLevel := DEF_MEM_LEVEL in
      let* err := engine_call p
                    (fun s => Call_deflateInit2 s level Z_DEFLATED windowBits
                                                memLevel strategy) in
      if negb (err =? Z_OK) then
        let* _ := throwExceptionForZlibError
                    "java/lang/IllegalArgumentException" err in
        (* jstream goes out of scope still owning the object *)
        let* _ := delete_NativeZipStream p in
        ret (-1)
      else
        (* jstream.release(), the address as uintptr_t, returned as jlong *)
        ret (to_jlong p)
  end.

(** The end of Deflater_deflateImpl, after its switch: the cursor
    differences, the update of inRead and the result. *)
Definition deflateImpl_bookkeeping (recv : jobject)
           (strm initialNextIn initialNextOut : Z) : M Z :=
  let* nextIn := read_stream strm next_in in
  let* nextOut := read_stream strm next_out in
  let bytesRead := to_jint (nextIn - initialNextIn) in
  let bytesWritten := to_jint (nextOut - initialNextOut) in
  let* inReadValue := GetIntField_inRead recv in
  let inReadValue := to_jint (inReadValue + bytesRead) in
  let* _ := SetIntField_inRead recv inReadValue in
  ret bytesWritten.

Definition Deflater_deflateImpl (recv : jobject) (buf : jbyteArray)
           (off len handle flushStyle : Z) : M Z :=
  let strm := toNativeZipStream handle in
  let* out := ScopedByteArrayRW_get buf in
  match out with
  | None => ret (-1)
  | Some out_get =>
      let* _ := write_stream strm (set_next_out (out_get + off)) in
      let* _ := write_stream strm (set_avail_out (to_uInt len)) in
      let* initialNextIn := read_stream strm next_in in
      let* initialNextOut := read_stream strm next_out in
      let* err := engine_call strm (fun s => Call_deflate s flushStyle) in
      if err =? Z_OK then
        deflateImpl_bookkeeping recv strm initialNextIn initialNextOut
      else if err =? Z_STREAM_END then
        let* _ := SetBooleanField_finished recv true in
        deflateImpl_bookkeeping recv strm initialNextIn initialNextOut
      else if err =? Z_BUF_ERROR then
        deflateImpl_bookkeeping recv strm initialNextIn initialNextOut
      else
        let* _ := throwExceptionForZlibError
                    "java/util/zip/DataFormatException" err in
        ret (-1)
  end.

Definition Deflater_endImpl (handle : Z) : M unit :=
  let strm := toNativeZipStream handle in
  let* _ := engine_call strm Call_deflateEnd in
  delete_NativeZipStream strm.

Definition Deflater_resetImpl (handle : Z) : M unit :=
  let strm := toNativeZipStream handle in
  let* err := engine_call strm Call_deflateReset in
  if negb (err =? Z_OK) then
    throwExceptionForZlibError "java/lang/IllegalArgumentException" err
  else ret tt.

Definition Deflater_setLevelsImpl (level strategy handle : Z) : M unit :=
  let strm := toNativeZipStream handle in
  let* _ := write_stream strm (set_next_out 0) in
  let* _ := write_stream strm (set_avail_out 0) in
  let* err := engine_call strm
                (fun s => Call_deflateParams s level strategy) in
  if negb (err =? Z_OK) then
    throwExceptionForZlibError "java/lang/IllegalStateException" err
  else ret tt.

(** *** Reading a world *)

Definition inRead_of (w : World) (recv : jobject) : option Z :=
  inRead <$> objects w !! recv.

Definition finished_of (w : World) (recv : jobject) : option bool :=
  finished <$> objects w !! recv.

Definition stream_of (w : World) (handle : Z) : option (z_stream internal_state) :=
  stream <$> streams w !! toNativeZipStream handle.

(** The stream as Deflater_deflateImpl hands it to the engine: the output
    region bound to [len] bytes at [out_get + off]. *)
Definition bound_output (out_get off len : Z) (s : z_stream internal_state)
  : z_stream internal_state :=
  set_avail_out (to_uInt len) (set_next_out (out_get + off) s).

(** The stream as Deflater_setLevelsImpl hands it to the engine. *)
Definition cleared_output (s : z_stream internal_state) : z_stream internal_state :=
  set_avail_out 0 (set_next_out 0 s).

(** The world right after an engine call on the object at [p]: the pending
    exception is [e], the object holds [s1], the memory is [m1] and the call
    [c] is logged. *)
Definition stepped (w : World) (e : option Throwable) (p : Z)
           (s1 : z_stream internal_state) (m1 : memory)
           (c : EngineCall internal_state) : World :=
  mk_World e (objects w) (<[p := mk_NativeZipStream s1]> (streams w)) m1
           (calls w ++ [c]).

(** An address [new] may give on the native heap [h]: not in use, not null,
    with room for the object below the top of the address space. *)
Definition placed (h : gmap Z (NativeZipStream internal_state)) (p : Z) : Prop :=
  h !! p = None /\ 0 < p /\ p + sizeof_NativeZipStream <= 2 ^ ptr_bits.

(** The statuses after which Deflater_deflateImpl goes on to its
    bookkeeping. *)
Definition nonfatal (err : Z) : bool :=
  (err =? Z_OK) || (err =? Z_STREAM_END) || (err =? Z_BUF_ERROR).

End Deflater.

Arguments World : clear implicits.
Arguments M : clear implicits.

(** ** Fixtures: a small engine and runtime on which the methods run *)
Module Demo.

(** The engine's status word is its whole working state here. *)
Definition NO_STATE : Z := 0.
Definition INIT_STATE : Z := 42.
Definition BUSY_STATE : Z := 113.
Definition FINISH_STATE : Z := 666.

(** A stored-data engine: one step moves as many bytes as fit from the input
    region to the output region, unchanged. *)
Definition store_deflateInit2 (s : z_stream Z)
           (level method windowBits memLevel strategy : Z) (m : unit)
  : Z * z_stream Z * unit :=
  if (method =? Z_DEFLATED) && (-1 <=? level) && (level <=? 9)
     && (0 <=? strategy) && (strategy <=? 4)
     && (8 <=? Z.abs windowBits) && (Z.abs windowBits <=? 15)
     && (1 <=? memLevel) && (memLevel <=? 9)
  then (Z_OK, mk_z_stream (next_in s) (avail_in s) 0 (next_out s) (avail_out s)
                          0 1 INIT_STATE, m)
  else (Z_STREAM_ERROR, s, m).

Definition store_move (s : z_stream Z) (flush : Z) : z_stream Z :=
  let n := Z.min (avail_in s) (avail_out s) in
  mk_z_stream (next_in s + n) (avail_in s - n) (total_in s + n)
              (next_out s + n) (avail_out s - n) (total_out s + n) (adler s)
              (if (flush =? Z_FINISH) && (avail_in s - n =? 0)
               then FINISH_STATE else BUSY_STATE).

Definition store_deflate (s : z_stream Z) (flush : Z) (m : unit)
  : Z * z_stream Z * unit :=
  if (state s =? NO_STATE) || (flush <? 0) || (5 <? flush)
     || ((state s =? FINISH_STATE) && negb (flush =? Z_FINISH))
  then (Z_STREAM_ERROR, s, m)
  else if avail_out s =? 0 then (Z_BUF_ERROR, s, m)
  else if (flush =? Z_FINISH) && (avail_in s <=? avail_out s)
  then (Z_STREAM_END, store_move s flush, m)
  else if avail_in s =? 0 then (Z_BUF_ERROR, s, m)
  else (Z_OK, store_move s flush, m).

Definition store_deflateReset (s : z_stream Z) (m : unit)
  : Z * z_stream Z * unit :=
  if state s =? NO_STATE then (Z_STREAM_ERROR, s, m)
  else (Z_OK, mk_z_stream (next_in s) (avail_in s) 0 (next_out s) (avail_out s)
                          0 1 INIT_STATE, m).

Definition store_deflateParams (s : z_stream Z) (level strategy : Z) (m : unit)
  : Z * z_stream Z * unit :=
  if (state s =? NO_STATE) || (level <? -1) || (9 <? level)
     || (strategy <? 0) || (4 <? strategy)
  then (Z_STREAM_ERROR, s, m)
  else (Z_OK, s, m).

Definition store_deflateEnd (s : z_stream Z) (m : unit)
  : Z * z_stream Z * unit :=
  if state s =? NO_STATE then (Z_STREAM_ERROR, s, m)
  else (Z_OK, mk_z_stream (next_in s) (avail_in s) (total_in s) (next_out s)
                          (avail_out s) (total_out s) (adler s) NO_STATE, m).

Definition store_zError (err : Z) : string :=
  if err =? Z_NEED_DICT then "need dictionary"
  else if err =? Z_STREAM_END then "stream end"
  else if err =? Z_OK then ""
  else if err =? Z_ERRNO then "file error"
  else if err =? Z_STREAM_ERROR then "stream error"
  else if err =? Z_DATA_ERROR then "data error"
  else if err =? Z_MEM_ERROR then "insufficient memory"
  else if err =? Z_BUF_ERROR then "buffer error"
  else if err =? Z_VERSION_ERROR then "incompatible version"
  else "".

Definition store_engine : Engine Z unit :=
  Build_Engine Z unit store_deflateInit2 store_deflate store_deflateReset
               store_deflateParams store_deflateEnd store_zError.

(** The same engine with a step that takes its input and then reports a
    data error. *)
Definition failing_deflate (s : z_stream Z) (flush : Z) (m : unit)
  : Z * z_stream Z * unit :=
  (Z_DATA_ERROR, store_move s flush, m).

Definition failing_engine : Engine Z unit :=
  Build_Engine Z unit store_deflateInit2 failing_deflate store_deflateReset
               store_deflateParams store_deflateEnd store_zError.

(** A 32-bit runtime.  Objects are placed 128 bytes apart from address 4096
    on; array number [buf] is pinned at address [65536 * buf], the null
    reference 0 is not pinned and leaves a NullPointerException. *)
Definition demo_operator_new (h : gmap Z (NativeZipStream Z)) : option Z :=
  let p := 4096 + 128 * Z.of_nat (size h) in
  match h !! p with
  | None => if p + 68 <=? 2 ^ 32 then Some p else None
  | Some _ => None
  end.

Definition demo_ctor : NativeZipStream Z :=
  mk_NativeZipStream (mk_z_stream 0 0 0 0 0 0 0 NO_STATE).

Definition demo_ScopedByteArrayRW (e : option Throwable) (buf : jbyteArray)
  : option Z * option Throwable :=
  if buf =? 0
  then (None, Some (mk_Throwable "java/lang/NullPointerException" None))
  else (Some (65536 * buf), e).

Definition demo_runtime : Runtime Z :=
  Build_Runtime Z 32 68 demo_operator_new demo_ctor demo_ScopedByteArrayRW.

(** The same runtime with its native heap used up. *)
Definition exhausted_runtime : Runtime Z :=
  Build_Runtime Z 32 68 (fun _ => None) demo_ctor demo_ScopedByteArrayRW.

(** Worlds: [fresh_world] has one Deflater object, reference 7, and no
    stream; [fed_world] has in addition a stream at 4096 with eleven bytes of
    input bound at address 200000; [dead_world] has there a stream whose
    engine state is gone; [drained_world] is [fed_world] after a finishing
    step into array 3. *)
Definition demo_fields : gmap jobject DeflaterFields :=
  {[ 7 := mk_DeflaterFields false 0 ]}.

Definition fresh_world : World Z unit :=
  mk_World None demo_fields ∅ tt [].

Definition fed_stream : z_stream Z :=
  mk_z_stream 200000 11 0 0 0 0 1 INIT_STATE.

Definition fed_world : World Z unit :=
  mk_World None demo_fields {[ 4096 := mk_NativeZipStream fed_stream ]} tt [].

Definition dead_stream : z_stream Z :=
  mk_z_stream 200000 11 0 0 0 0 1 NO_STATE.

Definition dead_world : World Z unit :=
  mk_World None demo_fields {[ 4096 := mk_NativeZipStream dead_stream ]} tt [].

Definition drained_stream : z_stream Z :=
  mk_z_stream 200011 0 11 196619 53 11 1 FINISH_STATE.

Definition drained_world : World Z unit :=
  mk_World None {[ 7 := mk_DeflaterFields true 11 ]}
           {[ 4096 := mk_NativeZipStream drained_stream ]} tt
           [Call_deflate (mk_z_stream 200000 11 0 196608 64 0 1 INIT_STATE)
                         Z_FINISH].



(** [summed_world] holds a stream whose checksum has its top bit set;
    [pair_world] holds two streams, at 4096 and at 4224, and two Deflater
    objects, 7 and 8. *)
Definition summed_stream : z_stream Z :=
  mk_z_stream 200011 0 11 196619 53 11 4000000000 FINISH_STATE.

Definition summed_world : World Z unit :=
  mk_World None demo_fields {[ 4096 := mk_NativeZipStream summed_stream ]} tt [].

Definition pair_world : World Z unit :=
  mk_World None
           (<[ 8 := mk_DeflaterFields true 11 ]> demo_fields)
           (<[ 4224 := mk_NativeZipStream drained_stream ]>
              {[ 4096 := mk_NativeZipStream fed_stream ]})
           tt [].

End Demo.

(** * Properties *)

(** ** Machine integers *)

Lemma to_jint_small (x : Z) : is_jint x -> to_jint x = x.
Proof.
  unfold is_jint, to_jint, wrap_signed. intros Hx.
  rewrite Z.mod_small; lia.
Qed.


Lemma to_jlong_address (p : Z) : 0 < p < 2 ^ 64 - 1 -> to_jlong p <> -1.
Proof.
  unfold to_jlong, wrap_signed. intros Hp Heq.
  destruct (Z_lt_ge_dec p (2 ^ 63)) as [Hlow | Hhigh].
  - rewrite Z.mod_small in Heq; lia.
  - replace (p + 2 ^ (64 - 1)) with ((p - 2 ^ 63) + 1 * 2 ^ 64) in Heq by lia.
    rewrite Z.mod_add in Heq by lia.
    rewrite Z.mod_small in Heq; lia.
Qed.

(** ** Running the primitives *)

Section Run.

Context {internal_state memory : Type}.
Context {engine : Engine internal_state memory}.
Context {runtime : Runtime internal_state}.

Implicit Types (w : World internal_state memory).
Implicit Types (n : NativeZipStream internal_state).

Lemma bind_run {A B} (m : M internal_state memory A)
      (k : A -> M internal_state memory B) w a w1 :
  m w = Some (a, w1) -> bind m k w = k a w1.
Proof. intros Hm. unfold bind. now rewrite Hm. Qed.

Lemma write_stream_run p upd w n :
  streams w !! p = Some n ->
  write_stream p upd w =
  Some (tt, with_streams (<[p := mk_NativeZipStream (upd (stream n))]> (streams w)) w).
Proof. intros Hp. unfold write_stream. now rewrite Hp. Qed.

Lemma read_stream_run {A} p (field : z_stream internal_state -> A) w n :
  streams w !! p = Some n ->
  read_stream p field w = Some (field (stream n), w).
Proof. intros Hp. unfold read_stream. now rewrite Hp. Qed.

Lemma engine_call_run p c w n err s1 m1 :
  streams w !! p = Some n ->
  perform (c (stream n)) (mem w) = (err, s1, m1) ->
  engine_call p c w = Some (err, stepped w (pending w) p s1 m1 (c (stream n))).
Proof. intros Hp Hf. unfold engine_call. now rewrite Hp, Hf. Qed.

End Run.

(** ** Running Deflater_deflateImpl *)

Section DeflateRun.

Context {internal_state memory : Type}.
Context {engine : Engine internal_state memory}.
Context {runtime : Runtime internal_state}.

Variable w : World internal_state memory.
Variables recv buf off len handle flushStyle : Z.

Lemma deflateImpl_unpinned_run e :
  ScopedByteArrayRW (pending w) buf = (None, e) ->
  Deflater_deflateImpl recv buf off len handle flushStyle w =
  Some (-1, with_pending e w).
Proof.
  intros Hpin. unfold Deflater_deflateImpl, bind, ScopedByteArrayRW_get.
  now rewrite Hpin.
Qed.

Lemma bookkeeping_run (u : World internal_state memory) p iin iout n o :
  streams u !! p = Some n ->
  objects u !! recv = Some o ->
  deflateImpl_bookkeeping recv p iin iout u =
  Some (to_jint (next_out (stream n) - iout),
        with_objects
          (<[recv := mk_DeflaterFields
                       (finished o)
                       (to_jint (inRead o + to_jint (next_in (stream n) - iin)))]>
             (objects u)) u).
Proof.
  intros Hp Ho. unfold deflateImpl_bookkeeping.
  erewrite bind_run by (apply read_stream_run; exact Hp).
  erewrite bind_run by (apply read_stream_run; exact Hp).
  unfold bind, GetIntField_inRead, SetIntField_inRead, ret.
  rewrite Ho. cbv beta iota. now rewrite Ho.
Qed.

Lemma bookkeeping_undefined (u : World internal_state memory) p iin iout :
  objects u !! recv = None ->
  deflateImpl_bookkeeping recv p iin iout u = None.
Proof.
  intros Ho. unfold deflateImpl_bookkeeping, bind, read_stream,
    GetIntField_inRead.
  destruct (streams u !! p) as [n |] eqn:Hp; [| reflexivity].
  rewrite Hp. cbv beta iota. now rewrite Ho.
Qed.

Variable out_get : Z.
Variable e : option Throwable.
Variable n : NativeZipStream internal_state.
Variable err : Z.
Variable s1 : z_stream internal_state.
Variable m1 : memory.

Hypothesis Hpin : ScopedByteArrayRW (pending w) buf = (Some out_get, e).
Hypothesis Hstrm : streams w !! toNativeZipStream handle = Some n.
Hypothesis Hstep :
  deflate (bound_output out_get off len (stream n)) flushStyle (mem w)
  = (err, s1, m1).

(** Up to the switch: the output region is bound, the engine runs once. *)
Lemma deflateImpl_step_run :
  Deflater_deflateImpl recv buf off len handle flushStyle w =
  (let strm := toNativeZipStream handle in
   let initialNextIn := next_in (stream n) in
   let initialNextOut := out_get + off in
   if err =? Z_OK then
     deflateImpl_bookkeeping recv strm initialNextIn initialNextOut
   else if err =? Z_STREAM_END then
     bind (SetBooleanField_finished recv true)
          (fun _ => deflateImpl_bookkeeping recv strm initialNextIn initialNextOut)
   else if err =? Z_BUF_ERROR then
     deflateImpl_bookkeeping recv strm initialNextIn initialNextOut
   else
     bind (throwExceptionForZlibError "java/util/zip/DataFormatException" err)
          (fun _ => ret (-1)))
    (stepped w e (toNativeZipStream handle) s1 m1
             (Call_deflate (bound_output out_get off len (stream n)) flushStyle)).
Proof.
  unfold Deflater_deflateImpl.
  unfold bind at 1. unfold ScopedByteArrayRW_get. rewrite Hpin.
  erewrite bind_run;
    [| apply write_stream_run; cbn [streams with_streams with_pending];
       exact Hstrm].
  erewrite bind_run;
    [| apply write_stream_run; cbn [streams with_streams with_pending];
       apply lookup_insert_eq].
  erewrite bind_run;
    [| apply read_stream_run; cbn [streams with_streams with_pending];
       apply lookup_insert_eq].
  erewrite bind_run;
    [| apply read_stream_run; cbn [streams with_streams with_pending];
       apply lookup_insert_eq].
  erewrite bind_run;
    [| eapply engine_call_run;
       cbn [streams with_streams with_pending mem stream perform];
       [apply lookup_insert_eq | exact Hstep]].
  unfold stepped.
  cbn [streams with_streams with_pending mem stream pending objects calls
       next_in next_out set_avail_out set_next_out].
  rewrite !insert_insert_eq.
  reflexivity.
Qed.

End DeflateRun.

(** ** Running the other methods *)

Section OtherRuns.

Context {internal_state memory : Type}.
Context {engine : Engine internal_state memory}.
Context {runtime : Runtime internal_state}.

Variable w : World internal_state memory.

Lemma resetImpl_run handle n err s1 m1 :
  streams w !! toNativeZipStream handle = Some n ->
  deflateReset (stream n) (mem w) = (err, s1, m1) ->
  Deflater_resetImpl handle w =
  Some (tt,
        let u := stepped w (pending w) (toNativeZipStream handle) s1 m1
                         (Call_deflateReset (stream n)) in
        if err =? Z_OK then u
        else with_pending (Some (IllegalArgumentException (zError err))) u).
Proof.
  intros Hstrm Hstep. unfold Deflater_resetImpl.
  erewrite bind_run by (eapply engine_call_run; eassumption).
  cbv zeta. destruct (err =? Z_OK); reflexivity.
Qed.

Lemma setLevelsImpl_run level strategy handle n err s1 m1 :
  streams w !! toNativeZipStream handle = Some n ->
  deflateParams (cleared_output (stream n)) level strategy (mem w)
  = (err, s1, m1) ->
  Deflater_setLevelsImpl level strategy handle w =
  Some (tt,
        let u := stepped w (pending w) (toNativeZipStream handle) s1 m1
                         (Call_deflateParams (cleared_output (stream n))
                                             level strategy) in
        if err =? Z_OK then u
        else with_pending (Some (IllegalStateException (zError err))) u).
Proof.
  intros Hstrm Hstep. unfold Deflater_setLevelsImpl.
  erewrite bind_run by (apply write_stream_run; exact Hstrm).
  erewrite bind_run
    by (apply write_stream_run; cbn [streams with_streams];
        apply lookup_insert_eq).
  erewrite bind_run;
    [| eapply engine_call_run; cbn [streams with_streams mem stream perform];
       [apply lookup_insert_eq | exact Hstep]].
  unfold stepped.
  cbn [streams with_streams mem stream pending objects calls].
  rewrite !insert_insert_eq.
  destruct (err =? Z_OK); reflexivity.
Qed.

Lemma createStream_exhausted_run level strategy noHeader :
  operator_new (streams w) = None ->
  Deflater_createStream level strategy noHeader w =
  Some (-1, with_pending (Some OutOfMemoryError) w).
Proof.
  intros Hnew. unfold Deflater_createStream, bind, new_NativeZipStream.
  now rewrite Hnew.
Qed.

Lemma createStream_placed_run level strategy (noHeader : bool) p err s1 m1 :
  operator_new (streams w) = Some p ->
  deflateInit2 (stream NativeZipStream_ctor) level Z_DEFLATED
               (if noHeader then - DEF_WBITS else DEF_WBITS) DEF_MEM_LEVEL
               strategy (mem w) = (err, s1, m1) ->
  Deflater_createStream level strategy noHeader w =
  (let c := Call_deflateInit2 (stream NativeZipStream_ctor) level Z_DEFLATED
                              (if noHeader then - DEF_WBITS else DEF_WBITS)
                              DEF_MEM_LEVEL strategy in
   if err =? Z_OK
   then Some (to_jlong p, stepped w (pending w) p s1 m1 c)
   else Some (-1, mk_World (Some (IllegalArgumentException (zError err)))
                           (objects w) (delete p (streams w)) m1
                           (calls w ++ [c]))).
Proof.
  intros Hnew Hstep. unfold Deflater_createStream.
  unfold bind at 1. unfold new_NativeZipStream. rewrite Hnew.
  erewrite bind_run;
    [| eapply engine_call_run; cbn [streams with_streams mem perform];
       [apply lookup_insert_eq | exact Hstep]].
  unfold stepped.
  cbn [streams with_streams mem stream pending objects calls].
  destruct (err =? Z_OK); cbn [negb].
  - unfold ret. now rewrite insert_insert_eq.
  - unfold bind, throwExceptionForZlibError, delete_NativeZipStream, ret.
    cbn [streams with_pending pending objects mem calls].
    rewrite lookup_insert_eq.
    cbn [with_streams streams pending objects mem calls].
    now rewrite !delete_insert_eq.
Qed.

(** The accessors read the engine's counters and change nothing. *)
Lemma getTotalInImpl_run handle n :
  streams w !! toNativeZipStream handle = Some n ->
  Deflater_getTotalInImpl handle w = Some (to_jlong (total_in (stream n)), w).
Proof.
  intros Hstrm. unfold Deflater_getTotalInImpl.
  now erewrite bind_run by (apply read_stream_run; exact Hstrm).
Qed.

Lemma getTotalOutImpl_run handle n :
  streams w !! toNativeZipStream handle = Some n ->
  Deflater_getTotalOutImpl handle w = Some (to_jlong (total_out (stream n)), w).
Proof.
  intros Hstrm. unfold Deflater_getTotalOutImpl.
  now erewrite bind_run by (apply read_stream_run; exact Hstrm).
Qed.

Lemma getAdlerImpl_run handle n :
  streams w !! toNativeZipStream handle = Some n ->
  Deflater_getAdlerImpl handle w = Some (to_jint (adler (stream n)), w).
Proof.
  intros Hstrm. unfold Deflater_getAdlerImpl.
  now erewrite bind_run by (apply read_stream_run; exact Hstrm).
Qed.

(** end finalizes the engine state and frees the object: the handle is
    dangling afterwards. *)
Lemma endImpl_run handle n err s1 m1 :
  streams w !! toNativeZipStream handle = Some n ->
  deflateEnd (stream n) (mem w) = (err, s1, m1) ->
  Deflater_endImpl handle w =
  Some (tt, mk_World (pending w) (objects w)
                     (delete (toNativeZipStream handle) (streams w)) m1
                     (calls w ++ [Call_deflateEnd (stream n)])).
Proof.
  intros Hstrm Hstep. unfold Deflater_endImpl.
  erewrite bind_run by (eapply engine_call_run; eassumption).
  unfold delete_NativeZipStream, stepped. cbn [streams].
  rewrite lookup_insert_eq. unfold with_streams.
  cbn [streams pending objects mem calls].
  now rewrite delete_insert_eq.
Qed.

Lemma endImpl_twice_undefined handle n u :
  streams w !! toNativeZipStream handle = Some n ->
  Deflater_endImpl handle w = Some (tt, u) ->
  Deflater_endImpl handle u = None.
Proof.
  intros Hstrm Hrun.
  destruct (deflateEnd (stream n) (mem w)) as [[err s1] m1] eqn:Hstep.
  rewrite (endImpl_run handle n err s1 m1 Hstrm Hstep) in Hrun.
  injection Hrun as <-.
  unfold Deflater_endImpl, bind, engine_call. cbn [streams].
  now rewrite lookup_delete_eq.
Qed.

End OtherRuns.

(** ** The deflate call *)

Section DeflateClaims.

Context {internal_state memory : Type}.
Context {engine : Engine internal_state memory}.
Context {runtime : Runtime internal_state}.

Implicit Types (w : World internal_state memory).
Implicit Types (n : NativeZipStream internal_state).

Lemma nonfatal_cases err :
  nonfatal err = true <-> err = Z_OK \/ err = Z_STREAM_END \/ err = Z_BUF_ERROR.
Proof.
  unfold nonfatal. rewrite !orb_true_iff, !Z.eqb_eq. tauto.
Qed.

Lemma fatal_cases err :
  nonfatal err = false <->
  err <> Z_OK /\ err <> Z_STREAM_END /\ err <> Z_BUF_ERROR.
Proof.
  unfold nonfatal. rewrite !orb_false_iff, !Z.eqb_neq. tauto.
Qed.

(** The three non-fatal outcomes in one equation: the result is the wrapped
    output-cursor difference, the pending exception is what the buffer helper
    left, the receiver's finished flag is set on Z_STREAM_END only, and its
    inRead has the wrapped input-cursor difference added. *)
Lemma deflateImpl_nonfatal_run w recv buf off len handle flushStyle
      out_get e n o err (s1 : z_stream internal_state) m1 :
  ScopedByteArrayRW (pending w) buf = (Some out_get, e) ->
  streams w !! toNativeZipStream handle = Some n ->
  objects w !! recv = Some o ->
  deflate (bound_output out_get off len (stream n)) flushStyle (mem w)
  = (err, s1, m1) ->
  nonfatal err = true ->
  Deflater_deflateImpl recv buf off len handle flushStyle w =
  Some (to_jint (next_out s1 - (out_get + off)),
        with_objects
          (<[recv := mk_DeflaterFields
                       (if err =? Z_STREAM_END then true else finished o)
                       (to_jint (inRead o
                                 + to_jint (next_in s1 - next_in (stream n))))]>
             (objects w))
          (stepped w e (toNativeZipStream handle) s1 m1
                   (Call_deflate (bound_output out_get off len (stream n))
                                 flushStyle))).
Proof.
  intros Hpin Hstrm Hobj Hstep Hnf.
  rewrite (deflateImpl_step_run w recv buf off len handle flushStyle
             out_get e n err s1 m1 Hpin Hstrm Hstep).
  cbv zeta.
  set (u := stepped _ _ _ _ _ _).
  assert (Hu : streams u !! toNativeZipStream handle
               = Some (mk_NativeZipStream s1))
    by (subst u; unfold stepped; cbn [streams]; apply lookup_insert_eq).
  assert (Ho : objects u !! recv = Some o) by exact Hobj.
  apply nonfatal_cases in Hnf as [-> | [-> | ->]];
    cbn [Z.eqb Z_OK Z_STREAM_END Z_BUF_ERROR Pos.eqb].
  - now rewrite (bookkeeping_run recv u _ _ _ _ o Hu Ho).
  - unfold bind at 1. unfold SetBooleanField_finished. rewrite Ho.
    erewrite bookkeeping_run;
      [| cbn [with_objects streams]; exact Hu
       | cbn [with_objects objects]; apply lookup_insert_eq].
    cbn [finished inRead stream with_objects objects pending streams mem calls].
    now rewrite insert_insert_eq.
  - now rewrite (bookkeeping_run recv u _ _ _ _ o Hu Ho).
Qed.

(** The fatal outcome: a DataFormatException with the engine's text, the
    sentinel as result, nothing else done after the engine step. *)
Lemma deflateImpl_fatal_run w recv buf off len handle flushStyle
      out_get e n err (s1 : z_stream internal_state) m1 :
  ScopedByteArrayRW (pending w) buf = (Some out_get, e) ->
  streams w !! toNativeZipStream handle = Some n ->
  deflate (bound_output out_get off len (stream n)) flushStyle (mem w)
  = (err, s1, m1) ->
  nonfatal err = false ->
  Deflater_deflateImpl recv buf off len handle flushStyle w =
  Some (-1, with_pending
              (Some (DataFormatException (zError err)))
              (stepped w e (toNativeZipStream handle) s1 m1
                       (Call_deflate (bound_output out_get off len (stream n))
                                     flushStyle))).
Proof.
  intros Hpin Hstrm Hstep Hfatal.
  rewrite (deflateImpl_step_run w recv buf off len handle flushStyle
             out_get e n err s1 m1 Hpin Hstrm Hstep).
  cbv zeta. apply fatal_cases in Hfatal as (Hok & Hend & Hbuf).
  apply Z.eqb_neq in Hok, Hend, Hbuf. rewrite Hok, Hend, Hbuf.
  reflexivity.
Qed.

(** C1. Status mapping of a deflate call whose buffer is pinned, on a live
    handle and receiver: after Z_OK, Z_STREAM_END and Z_BUF_ERROR the call
    gives the bytes produced (the output-cursor difference as a jint) and
    raises nothing; the finished flag is as it was after Z_OK and
    Z_BUF_ERROR and is true after Z_STREAM_END; after any other status the
    call gives -1 with a DataFormatException pending that carries the engine's
    message for the status. *)
Theorem deflateImpl_status_mapping w recv buf off len handle flushStyle
        out_get e n o err (s1 : z_stream internal_state) m1 :
  ScopedByteArrayRW (pending w) buf = (Some out_get, e) ->
  streams w !! toNativeZipStream handle = Some n ->
  objects w !! recv = Some o ->
  deflate (bound_output out_get off len (stream n)) flushStyle (mem w)
  = (err, s1, m1) ->
  exists r w',
    Deflater_deflateImpl recv buf off len handle flushStyle w = Some (r, w') /\
    (err = Z_OK ->
     r = to_jint (next_out s1 - (out_get + off)) /\
     finished_of w' recv = Some (finished o) /\ pending w' = e) /\
    (err = Z_STREAM_END ->
     r = to_jint (next_out s1 - (out_get + off)) /\
     finished_of w' recv = Some true /\ pending w' = e) /\
    (err = Z_BUF_ERROR ->
     r = to_jint (next_out s1 - (out_get + off)) /\
     finished_of w' recv = Some (finished o) /\ pending w' = e) /\
    (err <> Z_OK -> err <> Z_STREAM_END -> err <> Z_BUF_ERROR ->
     r = -1 /\
     pending w' = Some (mk_Throwable "java/util/zip/DataFormatException"
                                     (Some (zError err)))).
Proof.
  intros Hpin Hstrm Hobj Hstep.
  destruct (nonfatal err) eqn:Hnf.
  - rewrite (deflateImpl_nonfatal_run _ _ _ _ _ _ _ _ _ _ _ _ _ _
               Hpin Hstrm Hobj Hstep Hnf).
    eexists _, _. split; [reflexivity |].
    unfold finished_of. cbn [with_objects objects pending stepped].
    rewrite lookup_insert_eq. cbn [fmap option_fmap option_map finished].
    apply nonfatal_cases in Hnf.
    split; [| split; [| split]].
    1-3: intros ->; repeat split; reflexivity.
    intros Hok Hend Hbuf. exfalso. tauto.
  - rewrite (deflateImpl_fatal_run _ _ _ _ _ _ _ _ _ _ _ _ _
               Hpin Hstrm Hstep Hnf).
    eexists _, _. split; [reflexivity |].
    apply fatal_cases in Hnf as (Hok & Hend & Hbuf).
    split; [| split; [| split]].
    1-3: intros Heq; congruence.
    intros _ _ _. split; reflexivity.
Qed.

(** C2. Accounting of a non-fatal deflate call: the result is the
    difference of the output cursor across the engine step and the
    receiver's inRead grows by the difference of the input cursor, both in
    jint arithmetic; when the two differences and the new counter are
    representable as jint these are the exact numbers. *)
Theorem deflateImpl_progress_accounting w recv buf off len handle flushStyle
        out_get e n o err (s1 : z_stream internal_state) m1 :
  ScopedByteArrayRW (pending w) buf = (Some out_get, e) ->
  streams w !! toNativeZipStream handle = Some n ->
  objects w !! recv = Some o ->
  deflate (bound_output out_get off len (stream n)) flushStyle (mem w)
  = (err, s1, m1) ->
  err = Z_OK \/ err = Z_STREAM_END \/ err = Z_BUF_ERROR ->
  let initialNextIn := next_in (bound_output out_get off len (stream n)) in
  let initialNextOut := next_out (bound_output out_get off len (stream n)) in
  let consumed := next_in s1 - initialNextIn in
  let produced := next_out s1 - initialNextOut in
  exists r w',
    Deflater_deflateImpl recv buf off len handle flushStyle w = Some (r, w') /\
    r = to_jint produced /\
    inRead_of w' recv = Some (to_jint (inRead o + to_jint consumed)) /\
    (is_jint produced -> r = produced) /\
    (is_jint consumed -> is_jint (inRead o + consumed) ->
     inRead_of w' recv = Some (inRead o + consumed)).
Proof.
  intros Hpin Hstrm Hobj Hstep Hnf. apply nonfatal_cases in Hnf.
  cbn [bound_output set_avail_out set_next_out next_in next_out]. cbv zeta.
  rewrite (deflateImpl_nonfatal_run _ _ _ _ _ _ _ _ _ _ _ _ _ _
             Hpin Hstrm Hobj Hstep Hnf).
  eexists _, _. split; [reflexivity |].
  unfold inRead_of. cbn [with_objects objects].
  rewrite lookup_insert_eq. cbn [fmap option_fmap option_map inRead].
  repeat split.
  - apply to_jint_small.
  - intros Hc Hsum. now rewrite (to_jint_small _ Hc), (to_jint_small _ Hsum).
Qed.


(** C9. A deflate call whose engine step ends in a fatal status gives -1
    and leaves every Java-side field as it was, the receiver's inRead and
    finished among them, wherever the engine left the input cursor. *)
Theorem deflateImpl_fatal_leaves_fields w recv buf off len handle flushStyle
        out_get e n err (s1 : z_stream internal_state) m1 :
  ScopedByteArrayRW (pending w) buf = (Some out_get, e) ->
  streams w !! toNativeZipStream handle = Some n ->
  deflate (bound_output out_get off len (stream n)) flushStyle (mem w)
  = (err, s1, m1) ->
  err <> Z_OK -> err <> Z_STREAM_END -> err <> Z_BUF_ERROR ->
  exists w',
    Deflater_deflateImpl recv buf off len handle flushStyle w = Some (-1, w') /\
    objects w' = objects w /\
    inRead_of w' recv = inRead_of w recv /\
    finished_of w' recv = finished_of w recv /\
    stream_of w' handle = Some s1.
Proof.
  intros Hpin Hstrm Hstep Hok Hend Hbuf.
  assert (Hfatal : nonfatal err = false) by (apply fatal_cases; tauto).
  rewrite (deflateImpl_fatal_run _ _ _ _ _ _ _ _ _ _ _ _ _
             Hpin Hstrm Hstep Hfatal).
  eexists. split; [reflexivity |].
  unfold inRead_of, finished_of, stream_of.
  cbn [with_pending stepped objects streams].
  rewrite lookup_insert_eq. repeat split.
Qed.

(** C10. A deflate call whose output buffer is not pinned gives -1 without
    an engine call: the native streams, the byte memory, the call log and
    every Java-side field are as before. *)
Theorem deflateImpl_unpinned_returns_early w recv buf off len handle flushStyle e :
  ScopedByteArrayRW (pending w) buf = (None, e) ->
  exists w',
    Deflater_deflateImpl recv buf off len handle flushStyle w = Some (-1, w') /\
    calls w' = calls w /\
    streams w' = streams w /\
    mem w' = mem w /\
    objects w' = objects w /\
    stream_of w' handle = stream_of w handle /\
    finished_of w' recv = finished_of w recv /\
    inRead_of w' recv = inRead_of w recv.
Proof.
  intros Hpin.
  rewrite (deflateImpl_unpinned_run w recv buf off len handle flushStyle e Hpin).
  eexists. split; [reflexivity |]. repeat split.
Qed.

End DeflateClaims.

(** ** Handles *)

Section Handles.

Context {internal_state : Type}.
Context {runtime : Runtime internal_state}.

(** A handle made from an address leads back to that address. *)
Lemma toNativeZipStream_to_jlong (p : Z) :
  0 < ptr_bits <= 64 -> 0 <= p < 2 ^ ptr_bits ->
  toNativeZipStream (to_jlong p) = p.
Proof.
  intros Hbits Hp. unfold toNativeZipStream, wrap_unsigned, to_jlong, wrap_signed.
  assert (Hsplit : 2 ^ 64 = 2 ^ (64 - ptr_bits) * 2 ^ ptr_bits)
    by (rewrite <- Z.pow_add_r by lia; f_equal; lia).
  assert (Hk : exists k, (p + 2 ^ (64 - 1)) mod 2 ^ 64 - 2 ^ (64 - 1)
                         = p + k * 2 ^ ptr_bits).
  { exists (- ((p + 2 ^ (64 - 1)) / 2 ^ 64) * 2 ^ (64 - ptr_bits)).
    rewrite Z.mod_eq by lia.
    set (q := (p + 2 ^ (64 - 1)) / 2 ^ 64). rewrite Hsplit. ring. }
  destruct Hk as [k ->].
  rewrite Z.mod_add by lia.
  apply Z.mod_small. exact Hp.
Qed.

Lemma placed_below_top (h : gmap Z (NativeZipStream internal_state)) (p : Z) :
  0 < ptr_bits <= 64 -> 1 < sizeof_NativeZipStream -> placed h p ->
  0 < p < 2 ^ ptr_bits - 1 /\ 0 < p < 2 ^ 64 - 1.
Proof.
  intros Hbits Hsize (_ & Hpos & Htop).
  assert (2 ^ ptr_bits <= 2 ^ 64) by (apply Z.pow_le_mono_r; lia).
  lia.
Qed.

End Handles.

(** ** create, reset, setLevels *)

Section LifecycleClaims.

Context {internal_state memory : Type}.
Context {engine : Engine internal_state memory}.
Context {runtime : Runtime internal_state}.

Implicit Types (w : World internal_state memory).
Implicit Types (n : NativeZipStream internal_state).

(** C5. A create call entered with no exception pending, on a runtime whose
    allocator gives addresses of objects that fit in the address space: the
    result is -1 exactly when an exception is pending on return.  A failed
    allocation raises OutOfMemoryError; an initialisation the engine rejects
    raises IllegalArgumentException with the engine's message and releases
    the object, the native heap being as before; otherwise the result is the
    object's address as a handle, different from -1, and the initialised
    object lives at that address. *)
Theorem createStream_sentinel_iff_failure w level strategy (noHeader : bool) :
  pending w = None ->
  0 < ptr_bits <= 64 ->
  1 < sizeof_NativeZipStream ->
  (forall p, operator_new (streams w) = Some p -> placed (streams w) p) ->
  exists r w',
    Deflater_createStream level strategy noHeader w = Some (r, w') /\
    (r = -1 <-> pending w' <> None) /\
    (operator_new (streams w) = None ->
     r = -1 /\
     pending w' = Some (mk_Throwable "java/lang/OutOfMemoryError" None) /\
     streams w' = streams w) /\
    (forall p err s1 m1,
        operator_new (streams w) = Some p ->
        deflateInit2 (stream NativeZipStream_ctor) level Z_DEFLATED
                     (if noHeader then - DEF_WBITS else DEF_WBITS)
                     DEF_MEM_LEVEL strategy (mem w) = (err, s1, m1) ->
        (err <> Z_OK ->
         r = -1 /\
         pending w' = Some (mk_Throwable "java/lang/IllegalArgumentException"
                                         (Some (zError err))) /\
         streams w' = streams w) /\
        (err = Z_OK ->
         r <> -1 /\ r = to_jlong p /\ toNativeZipStream r = p /\
         pending w' = None /\
         streams w' = <[p := mk_NativeZipStream s1]> (streams w))).
Proof.
  intros Hpend Hbits Hsize Hplaced.
  destruct (operator_new (streams w)) as [p |] eqn:Hnew.
  - destruct (deflateInit2 (stream NativeZipStream_ctor) level Z_DEFLATED
                (if noHeader then - DEF_WBITS else DEF_WBITS)
                DEF_MEM_LEVEL strategy (mem w)) as [[err s1] m1] eqn:Hinit.
    rewrite (createStream_placed_run w level strategy noHeader p err s1 m1
               Hnew Hinit).
    cbv zeta.
    pose proof (Hplaced p eq_refl) as Hp.
    destruct (placed_below_top _ _ Hbits Hsize Hp) as [Hptr Hlong].
    destruct Hp as (Hfree & _ & _).
    destruct (Z.eqb_spec err Z_OK) as [Hok | Hrej].
    + eexists _, _. split; [reflexivity |].
      cbn [stepped pending streams]. rewrite Hpend.
      split; [| split].
      * split; [intros Heq; now apply to_jlong_address in Heq | congruence].
      * discriminate.
      * intros p' err' s1' m1' [= <-] [= <- <- <-].
        split; [congruence |]. intros _.
        repeat split.
        -- now apply to_jlong_address.
        -- apply toNativeZipStream_to_jlong; lia.
    + eexists _, _. split; [reflexivity |].
      cbn [pending streams].
      split; [| split].
      * split; [discriminate | reflexivity].
      * discriminate.
      * intros p' err' s1' m1' [= <-] [= <- <- <-].
        split; [| congruence]. intros _.
        repeat split. now apply delete_id.
  - rewrite (createStream_exhausted_run w level strategy noHeader Hnew).
    eexists _, _. split; [reflexivity |].
    cbn [with_pending pending streams].
    split; [| split].
    + split; [discriminate | reflexivity].
    + intros _. repeat split.
    + discriminate.
Qed.


(** C3, as amended. A reset call on a live handle whose engine reset gives
    a status other than Z_OK raises IllegalArgumentException carrying the
    engine's message for that status. *)
Theorem resetImpl_rejected_raises_IllegalArgument w handle n err
        (s1 : z_stream internal_state) m1 :
  streams w !! toNativeZipStream handle = Some n ->
  deflateReset (stream n) (mem w) = (err, s1, m1) ->
  err <> Z_OK ->
  exists w',
    Deflater_resetImpl handle w = Some (tt, w') /\
    pending w' = Some (mk_Throwable "java/lang/IllegalArgumentException"
                                    (Some (zError err))).
Proof.
  intros Hstrm Hstep Hrej.
  rewrite (resetImpl_run w handle n err s1 m1 Hstrm Hstep).
  cbv zeta. apply Z.eqb_neq in Hrej. rewrite Hrej.
  eexists. split; reflexivity.
Qed.

(** C4. A reset call on a live handle returns and leaves every Java-side
    field as it was, the inRead counter of any object among them; what it
    changes is the stream behind the handle, which becomes the engine's
    reset stream. *)
Theorem resetImpl_leaves_inRead w handle n :
  streams w !! toNativeZipStream handle = Some n ->
  exists w',
    Deflater_resetImpl handle w = Some (tt, w') /\
    objects w' = objects w /\
    (forall recv, inRead_of w' recv = inRead_of w recv) /\
    stream_of w' handle = Some (snd (fst (deflateReset (stream n) (mem w)))).
Proof.
  intros Hstrm.
  destruct (deflateReset (stream n) (mem w)) as [[err s1] m1] eqn:Hstep.
  rewrite (resetImpl_run w handle n err s1 m1 Hstrm Hstep).
  cbv zeta. eexists. split; [reflexivity |].
  unfold inRead_of, stream_of.
  destruct (err =? Z_OK); cbn [with_pending stepped objects streams];
    rewrite lookup_insert_eq; repeat split.
Qed.

(** C7. A setLevels call on a live handle makes one engine invocation,
    deflateParams with the caller's level and strategy, on the stream with
    next_out null and avail_out zero and every other field as it stood; a
    status other than Z_OK raises IllegalStateException with the engine's
    message, and after Z_OK the pending exception is as before. *)
Theorem setLevelsImpl_clears_output_then_calls_engine w level strategy handle n
        err (s1 : z_stream internal_state) m1 :
  streams w !! toNativeZipStream handle = Some n ->
  deflateParams (cleared_output (stream n)) level strategy (mem w)
  = (err, s1, m1) ->
  exists w',
    Deflater_setLevelsImpl level strategy handle w = Some (tt, w') /\
    calls w' =
    calls w ++ [Call_deflateParams
                  (mk_z_stream (next_in (stream n)) (avail_in (stream n))
                               (total_in (stream n)) 0 0
                               (total_out (stream n)) (adler (stream n))
                               (state (stream n)))
                  level strategy] /\
    stream_of w' handle = Some s1 /\
    (err <> Z_OK ->
     pending w' = Some (mk_Throwable "java/lang/IllegalStateException"
                                     (Some (zError err)))) /\
    (err = Z_OK -> pending w' = pending w).
Proof.
  intros Hstrm Hstep.
  rewrite (setLevelsImpl_run w level strategy handle n err s1 m1 Hstrm Hstep).
  cbv zeta. eexists. split; [reflexivity |].
  unfold stream_of.
  destruct (Z.eqb_spec err Z_OK) as [Hok | Hrej];
    cbn [with_pending stepped calls streams pending];
    rewrite lookup_insert_eq; repeat split; congruence.
Qed.

End LifecycleClaims.

(** ** The methods on the fixtures *)

Module Runs.

Import Demo.

(** One finishing step on the fed stream with 64 bytes of output room:
    status Z_STREAM_END, eleven bytes moved. *)
Lemma deflateImpl_status_mapping_witness :
  (ScopedByteArrayRW (Runtime := demo_runtime) (pending fed_world) 3
   = (Some 196608, None) /\
   streams fed_world !! toNativeZipStream (runtime := demo_runtime) 4096
   = Some (mk_NativeZipStream fed_stream) /\
   objects fed_world !! 7 = Some (mk_DeflaterFields false 0) /\
   deflate (Engine := store_engine)
           (bound_output 196608 0 64 fed_stream) Z_FINISH tt
   = (Z_STREAM_END, mk_z_stream 200011 0 11 196619 53 11 1 FINISH_STATE, tt)) /\
  exists r w',
    Deflater_deflateImpl (engine := store_engine) (runtime := demo_runtime)
                         7 3 0 64 4096 Z_FINISH fed_world = Some (r, w') /\
    r = 11 /\ finished_of w' 7 = Some true /\
    pending w' = None.
Proof.
  assert (H1 : ScopedByteArrayRW (Runtime := demo_runtime) (pending fed_world) 3
               = (Some 196608, None)) by reflexivity.
  assert (H2 : streams fed_world !! toNativeZipStream (runtime := demo_runtime) 4096
               = Some (mk_NativeZipStream fed_stream)) by reflexivity.
  assert (H3 : objects fed_world !! 7 = Some (mk_DeflaterFields false 0))
    by reflexivity.
  assert (H4 : deflate (Engine := store_engine)
                       (bound_output 196608 0 64 fed_stream) Z_FINISH tt
               = (Z_STREAM_END,
                  mk_z_stream 200011 0 11 196619 53 11 1 FINISH_STATE, tt))
    by reflexivity.
  split; [repeat split; assumption |].
  destruct (deflateImpl_status_mapping
              (engine := store_engine) (runtime := demo_runtime)
              fed_world 7 3 0 64 4096 Z_FINISH 196608 None
              (mk_NativeZipStream fed_stream) (mk_DeflaterFields false 0)
              Z_STREAM_END _ tt H1 H2 H3 H4)
    as (r & w' & Hrun & _ & Hend & _).
  destruct (Hend eq_refl) as (Hr & Hfin & Hpend).
  exists r, w'. repeat split; assumption.
Defined.

(** One step without flush and with room for five bytes: status Z_OK, five
    bytes moved, five added to inRead. *)
Lemma deflateImpl_progress_accounting_witness :
  (ScopedByteArrayRW (Runtime := demo_runtime) (pending fed_world) 3
   = (Some 196608, None) /\
   streams fed_world !! toNativeZipStream (runtime := demo_runtime) 4096
   = Some (mk_NativeZipStream fed_stream) /\
   objects fed_world !! 7 = Some (mk_DeflaterFields false 0) /\
   deflate (Engine := store_engine)
           (bound_output 196608 0 5 fed_stream) Z_NO_FLUSH tt
   = (Z_OK, mk_z_stream 200005 6 5 196613 0 5 1 BUSY_STATE, tt)) /\
  exists r w',
    Deflater_deflateImpl (engine := store_engine) (runtime := demo_runtime)
                         7 3 0 5 4096 Z_NO_FLUSH fed_world = Some (r, w') /\
    r = 5 /\ inRead_of w' 7 = Some 5.
Proof.
  assert (H1 : ScopedByteArrayRW (Runtime := demo_runtime) (pending fed_world) 3
               = (Some 196608, None)) by reflexivity.
  assert (H2 : streams fed_world !! toNativeZipStream (runtime := demo_runtime) 4096
               = Some (mk_NativeZipStream fed_stream)) by reflexivity.
  assert (H3 : objects fed_world !! 7 = Some (mk_DeflaterFields false 0))
    by reflexivity.
  assert (H4 : deflate (Engine := store_engine)
                       (bound_output 196608 0 5 fed_stream) Z_NO_FLUSH tt
               = (Z_OK, mk_z_stream 200005 6 5 196613 0 5 1 BUSY_STATE, tt))
    by reflexivity.
  split; [repeat split; assumption |].
  destruct (deflateImpl_progress_accounting
              (engine := store_engine) (runtime := demo_runtime)
              fed_world 7 3 0 5 4096 Z_NO_FLUSH 196608 None
              (mk_NativeZipStream fed_stream) (mk_DeflaterFields false 0)
              Z_OK _ tt H1 H2 H3 H4 (or_introl eq_refl))
    as (r & w' & Hrun & _ & _ & Hr & Hin).
  exists r, w'. split; [exact Hrun |]. split.
  - apply Hr. unfold is_jint. simpl. lia.
  - apply Hin; unfold is_jint; simpl; lia.
Defined.



(** A step of the failing engine: the eleven bytes are taken, the status is
    Z_DATA_ERROR, and inRead stays 0. *)
Lemma deflateImpl_fatal_leaves_fields_witness :
  (ScopedByteArrayRW (Runtime := demo_runtime) (pending fed_world) 3
   = (Some 196608, None) /\
   streams fed_world !! toNativeZipStream (runtime := demo_runtime) 4096
   = Some (mk_NativeZipStream fed_stream) /\
   deflate (Engine := failing_engine)
           (bound_output 196608 0 64 fed_stream) Z_NO_FLUSH tt
   = (Z_DATA_ERROR, mk_z_stream 200011 0 11 196619 53 11 1 BUSY_STATE, tt)) /\
  exists w',
    Deflater_deflateImpl (engine := failing_engine) (runtime := demo_runtime)
                         7 3 0 64 4096 Z_NO_FLUSH fed_world = Some (-1, w') /\
    inRead_of w' 7 = Some 0 /\
    finished_of w' 7 = Some false /\
    next_in <$> stream_of (runtime := demo_runtime) w' 4096 = Some 200011.
Proof.
  assert (H1 : ScopedByteArrayRW (Runtime := demo_runtime) (pending fed_world) 3
               = (Some 196608, None)) by reflexivity.
  assert (H2 : streams fed_world !! toNativeZipStream (runtime := demo_runtime) 4096
               = Some (mk_NativeZipStream fed_stream)) by reflexivity.
  assert (H3 : deflate (Engine := failing_engine)
                       (bound_output 196608 0 64 fed_stream) Z_NO_FLUSH tt
               = (Z_DATA_ERROR,
                  mk_z_stream 200011 0 11 196619 53 11 1 BUSY_STATE, tt))
    by reflexivity.
  split; [repeat split; assumption |].
  destruct (deflateImpl_fatal_leaves_fields
              (engine := failing_engine) (runtime := demo_runtime)
              fed_world 7 3 0 64 4096 Z_NO_FLUSH 196608 None
              (mk_NativeZipStream fed_stream) Z_DATA_ERROR _ tt H1 H2 H3)
    as (w' & Hrun & _ & Hin & Hfin & Hstrm); try discriminate.
  exists w'. split; [exact Hrun |]. split; [| split].
  - rewrite Hin. reflexivity.
  - rewrite Hfin. reflexivity.
  - rewrite Hstrm. reflexivity.
Defined.

(** A call with the null array: the helper pins nothing. *)
Lemma deflateImpl_unpinned_returns_early_witness :
  ScopedByteArrayRW (Runtime := demo_runtime) (pending fed_world) 0
  = (None, Some (mk_Throwable "java/lang/NullPointerException" None)) /\
  exists w',
    Deflater_deflateImpl (engine := store_engine) (runtime := demo_runtime)
                         7 0 0 64 4096 Z_NO_FLUSH fed_world = Some (-1, w') /\
    calls w' = [] /\
    stream_of (runtime := demo_runtime) w' 4096 = Some fed_stream /\
    finished_of w' 7 = Some false /\
    inRead_of w' 7 = Some 0.
Proof.
  assert (H1 : ScopedByteArrayRW (Runtime := demo_runtime) (pending fed_world) 0
               = (None, Some (mk_Throwable "java/lang/NullPointerException" None)))
    by reflexivity.
  split; [exact H1 |].
  destruct (deflateImpl_unpinned_returns_early
              (engine := store_engine) (runtime := demo_runtime)
              fed_world 7 0 0 64 4096 Z_NO_FLUSH _ H1)
    as (w' & Hrun & Hcalls & _ & _ & _ & Hstrm & Hfin & Hin).
  exists w'. split; [exact Hrun |]. split; [| split; [| split]].
  - rewrite Hcalls. reflexivity.
  - rewrite Hstrm. reflexivity.
  - rewrite Hfin. reflexivity.
  - rewrite Hin. reflexivity.
Defined.

(** Creating a stream at level 6 with the header: the object is placed at
    4096 and that is the handle. *)
Lemma createStream_sentinel_iff_failure_witness :
  (pending fresh_world = None /\
   0 < ptr_bits (Runtime := demo_runtime) <= 64 /\
   1 < sizeof_NativeZipStream (Runtime := demo_runtime) /\
   operator_new (Runtime := demo_runtime) (streams fresh_world) = Some 4096 /\
   placed (runtime := demo_runtime) (streams fresh_world) 4096) /\
  exists r w',
    Deflater_createStream (engine := store_engine) (runtime := demo_runtime)
                          6 0 false fresh_world = Some (r, w') /\
    r = 4096 /\ pending w' = None /\
    stream_of (runtime := demo_runtime) w' r
    = Some (mk_z_stream 0 0 0 0 0 0 1 INIT_STATE).
Proof.
  assert (H1 : pending fresh_world = None) by reflexivity.
  assert (H2 : 0 < ptr_bits (Runtime := demo_runtime) <= 64) by (simpl; lia).
  assert (H3 : 1 < sizeof_NativeZipStream (Runtime := demo_runtime))
    by (simpl; lia).
  assert (H4 : operator_new (Runtime := demo_runtime) (streams fresh_world)
               = Some 4096) by reflexivity.
  assert (H5 : placed (runtime := demo_runtime) (streams fresh_world) 4096)
    by (split; [reflexivity | simpl; lia]).
  split; [repeat split; try assumption; simpl; lia |].
  destruct (createStream_sentinel_iff_failure
              (engine := store_engine) (runtime := demo_runtime)
              fresh_world 6 0 false H1 H2 H3)
    as (r & w' & Hrun & _ & _ & Hcases).
  { intros p Hp. rewrite H4 in Hp. injection Hp as <-. exact H5. }
  destruct (Hcases 4096 Z_OK (mk_z_stream 0 0 0 0 0 0 1 INIT_STATE) tt
                   H4 eq_refl) as [_ Hok].
  destruct (Hok eq_refl) as (_ & Hr & _ & Hpend & Hstrm).
  exists r, w'. split; [exact Hrun |]. split; [| split].
  - rewrite Hr. reflexivity.
  - exact Hpend.
  - unfold stream_of. rewrite Hstrm, Hr. reflexivity.
Defined.

(** The same call when the native heap is used up. *)
Example createStream_exhausted :
  Deflater_createStream (engine := store_engine) (runtime := exhausted_runtime)
                        6 0 false fresh_world
  = Some (-1, mk_World (Some OutOfMemoryError) demo_fields ∅ tt []).
Proof. reflexivity. Qed.

(** Level 16 is outside the engine's range: the call fails and the object
    is gone again. *)
Example createStream_rejected :
  Deflater_createStream (engine := store_engine) (runtime := demo_runtime)
                        16 0 false fresh_world
  = Some (-1, mk_World (Some (IllegalArgumentException "stream error"))
                       demo_fields ∅ tt
                       [Call_deflateInit2 (stream demo_ctor) 16 8 15 8 0]).
Proof. vm_compute. reflexivity. Qed.

(** Raw mode: the engine is given window bits -15. *)
Example createStream_raw :
  calls <$> (snd <$> Deflater_createStream
                       (engine := store_engine) (runtime := demo_runtime)
                       6 0 true fresh_world)
  = Some [Call_deflateInit2 (stream demo_ctor) 6 8 (-15) 8 0].
Proof. vm_compute. reflexivity. Qed.

(** C3, counterexample. The stream at 4096 of [dead_world] has no engine
    state, the engine's reset rejects it with Z_STREAM_ERROR, and the
    condition that the reset call leaves pending is an
    IllegalArgumentException, not an IllegalStateException. *)
Lemma resetImpl_rejected_not_IllegalState :
  fst (fst (deflateReset (Engine := store_engine) dead_stream tt)) <> Z_OK /\
  exists w',
    Deflater_resetImpl (engine := store_engine) (runtime := demo_runtime)
                       4096 dead_world = Some (tt, w') /\
    pending w' = Some (mk_Throwable "java/lang/IllegalArgumentException"
                                    (Some "stream error"%string)) /\
    forall msg,
      pending w' <> Some (mk_Throwable "java/lang/IllegalStateException" msg).
Proof.
  split; [discriminate |].
  eexists. split; [reflexivity |]. split; [reflexivity |].
  intros msg. discriminate.
Qed.

Lemma resetImpl_rejected_raises_IllegalArgument_witness :
  (streams dead_world !! toNativeZipStream (runtime := demo_runtime) 4096
   = Some (mk_NativeZipStream dead_stream) /\
   deflateReset (Engine := store_engine) dead_stream tt
   = (Z_STREAM_ERROR, dead_stream, tt) /\
   Z_STREAM_ERROR <> Z_OK) /\
  exists w',
    Deflater_resetImpl (engine := store_engine) (runtime := demo_runtime)
                       4096 dead_world = Some (tt, w') /\
    pending w' = Some (IllegalArgumentException "stream error").
Proof.
  assert (H1 : streams dead_world !! toNativeZipStream (runtime := demo_runtime) 4096
               = Some (mk_NativeZipStream dead_stream)) by reflexivity.
  assert (H2 : deflateReset (Engine := store_engine) dead_stream tt
               = (Z_STREAM_ERROR, dead_stream, tt)) by reflexivity.
  assert (H3 : Z_STREAM_ERROR <> Z_OK) by discriminate.
  split; [repeat split; assumption |].
  exact (resetImpl_rejected_raises_IllegalArgument
           (engine := store_engine) (runtime := demo_runtime)
           dead_world 4096 (mk_NativeZipStream dead_stream)
           Z_STREAM_ERROR dead_stream tt H1 H2 H3).
Defined.

(** Resetting the drained stream: the engine's totals are back to zero,
    inRead is still 11. *)
Lemma resetImpl_leaves_inRead_witness :
  streams drained_world !! toNativeZipStream (runtime := demo_runtime) 4096
  = Some (mk_NativeZipStream drained_stream) /\
  exists w',
    Deflater_resetImpl (engine := store_engine) (runtime := demo_runtime)
                       4096 drained_world = Some (tt, w') /\
    inRead_of w' 7 = Some 11 /\
    total_in <$> stream_of (runtime := demo_runtime) w' 4096 = Some 0.
Proof.
  assert (H1 : streams drained_world !! toNativeZipStream (runtime := demo_runtime) 4096
               = Some (mk_NativeZipStream drained_stream)) by reflexivity.
  split; [exact H1 |].
  destruct (resetImpl_leaves_inRead
              (engine := store_engine) (runtime := demo_runtime)
              drained_world 4096 (mk_NativeZipStream drained_stream) H1)
    as (w' & Hrun & _ & Hin & Hstrm).
  exists w'. split; [exact Hrun |]. split.
  - rewrite Hin. reflexivity.
  - rewrite Hstrm. reflexivity.
Defined.

(** Changing the level of the drained stream, whose output cursor still
    points into array 3: the engine sees a null cursor. *)
Lemma setLevelsImpl_clears_output_then_calls_engine_witness :
  (streams drained_world !! toNativeZipStream (runtime := demo_runtime) 4096
   = Some (mk_NativeZipStream drained_stream) /\
   deflateParams (Engine := store_engine) (cleared_output drained_stream) 9 0 tt
   = (Z_OK, cleared_output drained_stream, tt)) /\
  exists w',
    Deflater_setLevelsImpl (engine := store_engine) (runtime := demo_runtime)
                           9 0 4096 drained_world = Some (tt, w') /\
    calls w' =
    calls drained_world
    ++ [Call_deflateParams (mk_z_stream 200011 0 11 0 0 11 1 FINISH_STATE) 9 0] /\
    pending w' = None.
Proof.
  assert (H1 : streams drained_world !! toNativeZipStream (runtime := demo_runtime) 4096
               = Some (mk_NativeZipStream drained_stream)) by reflexivity.
  assert (H2 : deflateParams (Engine := store_engine)
                             (cleared_output drained_stream) 9 0 tt
               = (Z_OK, cleared_output drained_stream, tt)) by reflexivity.
  split; [split; assumption |].
  destruct (setLevelsImpl_clears_output_then_calls_engine
              (engine := store_engine) (runtime := demo_runtime)
              drained_world 9 0 4096 (mk_NativeZipStream drained_stream)
              Z_OK _ tt H1 H2)
    as (w' & Hrun & Hcalls & _ & _ & Hpend).
  exists w'. split; [exact Hrun |]. split.
  - exact Hcalls.
  - exact (Hpend eq_refl).
Defined.

(** A level outside the engine's range is answered with
    IllegalStateException. *)
Example setLevelsImpl_rejected :
  pending <$> (snd <$> Deflater_setLevelsImpl
                         (engine := store_engine) (runtime := demo_runtime)
                         12 0 4096 drained_world)
  = Some (Some (IllegalStateException "stream error")).
Proof. vm_compute. reflexivity. Qed.

End Runs.

(** * Further properties of the native methods *)

(** ** jint arithmetic *)

Lemma to_jint_add_l (a b : Z) : to_jint (to_jint a + b) = to_jint (a + b).
Proof.
  unfold to_jint, wrap_signed.
  replace ((a + 2 ^ (32 - 1)) mod 2 ^ 32 - 2 ^ (32 - 1) + b + 2 ^ (32 - 1))
    with ((a + 2 ^ (32 - 1)) mod 2 ^ 32 + b) by ring.
  rewrite Zplus_mod_idemp_l. f_equal. f_equal. ring.
Qed.

Lemma to_jint_add_r (a b : Z) : to_jint (a + to_jint b) = to_jint (a + b).
Proof. rewrite (Z.add_comm a), to_jint_add_l. f_equal. ring. Qed.

Lemma to_jint_range (x : Z) : is_jint (to_jint x).
Proof.
  unfold is_jint, to_jint, wrap_signed.
  pose proof (Z.mod_pos_bound (x + 2 ^ (32 - 1)) (2 ^ 32) ltac:(lia)). lia.
Qed.

(** ** More on the deflate call *)

Section DeflateMore.

Context {internal_state memory : Type}.
Context {engine : Engine internal_state memory}.
Context {runtime : Runtime internal_state}.

Implicit Types (w u : World internal_state memory).
Implicit Types (n : NativeZipStream internal_state).

Lemma deflateImpl_dangling_run w recv buf off len handle flushStyle out_get e :
  ScopedByteArrayRW (pending w) buf = (Some out_get, e) ->
  streams w !! toNativeZipStream handle = None ->
  Deflater_deflateImpl recv buf off len handle flushStyle w = None.
Proof.
  intros Hpin Hnone. unfold Deflater_deflateImpl.
  unfold bind at 1. unfold ScopedByteArrayRW_get. rewrite Hpin.
  unfold bind at 1. unfold write_stream. cbn [streams with_pending].
  now rewrite Hnone.
Qed.

(** Every defined outcome of a call that got its buffer and found its
    stream. *)
Lemma deflateImpl_defined_cases w recv buf off len handle flushStyle
      out_get e n err (s1 : z_stream internal_state) m1 r u :
  ScopedByteArrayRW (pending w) buf = (Some out_get, e) ->
  streams w !! toNativeZipStream handle = Some n ->
  deflate (bound_output out_get off len (stream n)) flushStyle (mem w)
  = (err, s1, m1) ->
  Deflater_deflateImpl recv buf off len handle flushStyle w = Some (r, u) ->
  let after := stepped w e (toNativeZipStream handle) s1 m1
                       (Call_deflate (bound_output out_get off len (stream n))
                                     flushStyle) in
  (nonfatal err = false /\ r = -1 /\
   u = with_pending (Some (DataFormatException (zError err))) after) \/
  (nonfatal err = true /\
   exists o,
     objects w !! recv = Some o /\
     r = to_jint (next_out s1 - (out_get + off)) /\
     u = with_objects
           (<[recv := mk_DeflaterFields
                        (if err =? Z_STREAM_END then true else finished o)
                        (to_jint (inRead o
                                  + to_jint (next_in s1 - next_in (stream n))))]>
              (objects w)) after).
Proof.
  intros Hpin Hstrm Hstep Hrun. cbv zeta.
  destruct (nonfatal err) eqn:Hnf.
  - right. split; [reflexivity |].
    destruct (objects w !! recv) as [o |] eqn:Hobj.
    + rewrite (deflateImpl_nonfatal_run _ _ _ _ _ _ _ _ _ _ _ _ _ _
                 Hpin Hstrm Hobj Hstep Hnf) in Hrun.
      injection Hrun as <- <-. exists o. repeat split.
    + exfalso.
      rewrite (deflateImpl_step_run w recv buf off len handle flushStyle
                 out_get e n err s1 m1 Hpin Hstrm Hstep) in Hrun.
      cbv zeta in Hrun.
      assert (Hund : forall p iin iout,
                 deflateImpl_bookkeeping recv p iin iout
                   (stepped w e (toNativeZipStream handle) s1 m1
                      (Call_deflate (bound_output out_get off len (stream n))
                                    flushStyle)) = None)
        by (intros; now apply bookkeeping_undefined).
      apply nonfatal_cases in Hnf as [-> | [-> | ->]];
        cbn [Z.eqb Z_OK Z_STREAM_END Z_BUF_ERROR Pos.eqb] in Hrun.
      * now rewrite Hund in Hrun.
      * unfold bind, SetBooleanField_finished in Hrun.
        cbn [stepped objects] in Hrun. now rewrite Hobj in Hrun.
      * now rewrite Hund in Hrun.
  - left. split; [reflexivity |].
    rewrite (deflateImpl_fatal_run _ _ _ _ _ _ _ _ _ _ _ _ _
               Hpin Hstrm Hstep Hnf) in Hrun.
    injection Hrun as <- <-. split; reflexivity.
Qed.


(** X2. Frame of a deflate call that returns: every stream but the one
    behind the handle and every Java object but the receiver is untouched,
    and no stream or object appears or disappears. *)
Theorem deflateImpl_frame w recv buf off len handle flushStyle r u :
  Deflater_deflateImpl recv buf off len handle flushStyle w = Some (r, u) ->
  (forall q, q <> toNativeZipStream handle -> streams u !! q = streams w !! q) /\
  (forall x, x <> recv -> objects u !! x = objects w !! x) /\
  dom (streams u) = dom (streams w) /\
  dom (objects u) = dom (objects w).
Proof.
  intros Hrun.
  destruct (ScopedByteArrayRW (pending w) buf) as [[out_get |] e] eqn:Hpin.
  - destruct (streams w !! toNativeZipStream handle) as [n |] eqn:Hstrm.
    + destruct (deflate (bound_output out_get off len (stream n)) flushStyle
                        (mem w)) as [[err s1] m1] eqn:Hstep.
      assert (Hdom : dom (<[toNativeZipStream handle := mk_NativeZipStream s1]>
                            (streams w)) = dom (streams w))
        by (apply dom_insert_lookup_L; eauto).
      destruct (deflateImpl_defined_cases _ _ _ _ _ _ _ _ _ _ _ _ _ _ _
                  Hpin Hstrm Hstep Hrun)
        as [(_ & _ & ->) | (_ & o & Hobj & _ & ->)];
        cbn [with_pending with_objects stepped streams objects].
      * repeat split; try done.
        intros q Hq. now apply lookup_insert_ne.
      * repeat split; try done.
        -- intros q Hq. now apply lookup_insert_ne.
        -- intros x Hx. now apply lookup_insert_ne.
        -- apply dom_insert_lookup_L. eauto.
    + now rewrite (deflateImpl_dangling_run _ _ _ _ _ _ _ _ _ Hpin Hstrm) in Hrun.
  - rewrite (deflateImpl_unpinned_run w recv buf off len handle flushStyle e Hpin)
      in Hrun.
    injection Hrun as <- <-. repeat split.
Qed.

(** X3. The finished flag after a deflate call is true exactly when it was
    true before or the engine reported Z_STREAM_END: the call never clears
    the flag and sets it for no other status. *)
Theorem deflateImpl_finished_iff_stream_end w recv buf off len handle flushStyle
        out_get e n o err (s1 : z_stream internal_state) m1 :
  ScopedByteArrayRW (pending w) buf = (Some out_get, e) ->
  streams w !! toNativeZipStream handle = Some n ->
  objects w !! recv = Some o ->
  deflate (bound_output out_get off len (stream n)) flushStyle (mem w)
  = (err, s1, m1) ->
  exists r u,
    Deflater_deflateImpl recv buf off len handle flushStyle w = Some (r, u) /\
    (finished_of u recv = Some true <->
     finished o = true \/ err = Z_STREAM_END).
Proof.
  intros Hpin Hstrm Hobj Hstep.
  destruct (nonfatal err) eqn:Hnf.
  - rewrite (deflateImpl_nonfatal_run _ _ _ _ _ _ _ _ _ _ _ _ _ _
               Hpin Hstrm Hobj Hstep Hnf).
    eexists _, _. split; [reflexivity |].
    unfold finished_of. cbn [with_objects objects].
    rewrite lookup_insert_eq. cbn [fmap option_fmap option_map finished].
    destruct (Z.eqb_spec err Z_STREAM_END) as [Hend | Hend].
    + split; [intros _; now right | reflexivity].
    + split; [intros [= ->]; now left | intros [-> | Habs]; [reflexivity | done]].
  - rewrite (deflateImpl_fatal_run _ _ _ _ _ _ _ _ _ _ _ _ _
               Hpin Hstrm Hstep Hnf).
    eexists _, _. split; [reflexivity |].
    unfold finished_of. cbn [with_pending stepped objects]. rewrite Hobj.
    cbn [fmap option_fmap option_map].
    apply fatal_cases in Hnf as (_ & Hend & _).
    split; [intros [= ->]; now left | intros [-> | Habs]; [reflexivity | done]].
Qed.

(** X4. For an output length that is a non-negative jint and an engine step
    that leaves the output cursor inside the bound region, a non-fatal
    deflate call returns the exact number of bytes produced, between 0 and
    [len]; in particular it does not return the sentinel -1. *)
Theorem deflateImpl_result_within_len w recv buf off len handle flushStyle
        out_get e n o err (s1 : z_stream internal_state) m1 :
  ScopedByteArrayRW (pending w) buf = (Some out_get, e) ->
  streams w !! toNativeZipStream handle = Some n ->
  objects w !! recv = Some o ->
  deflate (bound_output out_get off len (stream n)) flushStyle (mem w)
  = (err, s1, m1) ->
  err = Z_OK \/ err = Z_STREAM_END \/ err = Z_BUF_ERROR ->
  0 <= len < 2 ^ 31 ->
  out_get + off <= next_out s1 <= out_get + off + len ->
  exists r u,
    Deflater_deflateImpl recv buf off len handle flushStyle w = Some (r, u) /\
    r = next_out s1 - (out_get + off) /\
    0 <= r <= len /\ r <> -1.
Proof.
  intros Hpin Hstrm Hobj Hstep Hnf Hlen Hout. apply nonfatal_cases in Hnf.
  rewrite (deflateImpl_nonfatal_run _ _ _ _ _ _ _ _ _ _ _ _ _ _
             Hpin Hstrm Hobj Hstep Hnf).
  eexists _, _. split; [reflexivity |].
  rewrite to_jint_small by (unfold is_jint; lia).
  repeat split; lia.
Qed.

(** X5. Two non-fatal deflate calls in a row on one stream: the second
    engine step starts from the stream the first step left, with only the
    output region rebound, and afterwards inRead has grown, in jint
    arithmetic, by the whole distance the input cursor moved over both
    calls. *)
Theorem deflateImpl_twice_accumulates w recv handle
        bufA offA lenA flushA outA eA bufB offB lenB flushB outB eB
        n o errA (sA : z_stream internal_state) mA
        errB (sB : z_stream internal_state) mB :
  ScopedByteArrayRW (pending w) bufA = (Some outA, eA) ->
  streams w !! toNativeZipStream handle = Some n ->
  objects w !! recv = Some o ->
  deflate (bound_output outA offA lenA (stream n)) flushA (mem w)
  = (errA, sA, mA) ->
  nonfatal errA = true ->
  ScopedByteArrayRW eA bufB = (Some outB, eB) ->
  deflate (bound_output outB offB lenB sA) flushB mA = (errB, sB, mB) ->
  nonfatal errB = true ->
  exists rA uA rB uB,
    Deflater_deflateImpl recv bufA offA lenA handle flushA w = Some (rA, uA) /\
    Deflater_deflateImpl recv bufB offB lenB handle flushB uA = Some (rB, uB) /\
    inRead_of uB recv
    = Some (to_jint (inRead o + (next_in sB - next_in (stream n)))) /\
    stream_of uB handle = Some sB /\
    calls uB = calls w ++ [Call_deflate (bound_output outA offA lenA (stream n))
                                        flushA;
                           Call_deflate (bound_output outB offB lenB sA)
                                        flushB].
Proof.
  intros HpinA Hstrm Hobj HstepA HnfA HpinB HstepB HnfB.
  rewrite (deflateImpl_nonfatal_run _ _ _ _ _ _ _ _ _ _ _ _ _ _
             HpinA Hstrm Hobj HstepA HnfA).
  eexists _, _. eexists _, _. split; [reflexivity |].
  erewrite deflateImpl_nonfatal_run;
    [| cbn [with_objects stepped pending]; exact HpinB
     | cbn [with_objects stepped streams]; apply lookup_insert_eq
     | cbn [with_objects objects]; apply lookup_insert_eq
     | cbn [with_objects stepped mem stream]; exact HstepB
     | exact HnfB].
  split; [reflexivity |].
  unfold inRead_of, stream_of.
  cbn [with_objects stepped objects streams calls stream inRead].
  rewrite !lookup_insert_eq. cbn [fmap option_fmap option_map inRead stream].
  repeat split.
  - apply (f_equal Some).
    rewrite to_jint_add_r, to_jint_add_l.
    replace (inRead o + to_jint (next_in sA - next_in (stream n))
             + (next_in sB - next_in sA))
      with (inRead o + (next_in sB - next_in sA)
            + to_jint (next_in sA - next_in (stream n))) by ring.
    rewrite to_jint_add_r. apply (f_equal to_jint). ring.
  - now rewrite <- app_assoc.
Qed.

End DeflateMore.

(** ** More on create, reset, setLevels, end and the accessors *)

Section LifecycleMore.

Context {internal_state memory : Type}.
Context {engine : Engine internal_state memory}.
Context {runtime : Runtime internal_state}.

Implicit Types (w u : World internal_state memory).
Implicit Types (n : NativeZipStream internal_state).

Lemma resetImpl_dangling_run w handle :
  streams w !! toNativeZipStream handle = None ->
  Deflater_resetImpl handle w = None.
Proof.
  intros Hnone. unfold Deflater_resetImpl, bind, engine_call.
  now rewrite Hnone.
Qed.

Lemma setLevelsImpl_dangling_run w level strategy handle :
  streams w !! toNativeZipStream handle = None ->
  Deflater_setLevelsImpl level strategy handle w = None.
Proof.
  intros Hnone. unfold Deflater_setLevelsImpl.
  unfold bind at 1. unfold write_stream. now rewrite Hnone.
Qed.

Lemma endImpl_dangling_run w handle :
  streams w !! toNativeZipStream handle = None ->
  Deflater_endImpl handle w = None.
Proof.
  intros Hnone. unfold Deflater_endImpl, bind, engine_call.
  now rewrite Hnone.
Qed.

Lemma accessors_dangling_run w handle :
  streams w !! toNativeZipStream handle = None ->
  Deflater_getTotalInImpl handle w = None /\
  Deflater_getTotalOutImpl handle w = None /\
  Deflater_getAdlerImpl handle w = None.
Proof.
  intros Hnone.
  unfold Deflater_getTotalInImpl, Deflater_getTotalOutImpl,
    Deflater_getAdlerImpl, bind, read_stream.
  now rewrite Hnone.
Qed.

(** X6. An end call on a live handle returns whatever status the engine
    gives, raises nothing, frees exactly the object behind the handle and
    leaves every other stream and every Java field alone.  Afterwards the
    handle is dangling: reset, setLevels, end, the three accessors and any
    deflate call that gets its buffer have no defined behaviour on it. *)
Theorem endImpl_invalidates_handle w handle n :
  streams w !! toNativeZipStream handle = Some n ->
  exists u,
    Deflater_endImpl handle w = Some (tt, u) /\
    pending u = pending w /\
    objects u = objects w /\
    streams u = delete (toNativeZipStream handle) (streams w) /\
    (forall q, q <> toNativeZipStream handle ->
               streams u !! q = streams w !! q) /\
    calls u = calls w ++ [Call_deflateEnd (stream n)] /\
    Deflater_resetImpl handle u = None /\
    (forall level strategy,
        Deflater_setLevelsImpl level strategy handle u = None) /\
    Deflater_endImpl handle u = None /\
    Deflater_getTotalInImpl handle u = None /\
    Deflater_getTotalOutImpl handle u = None /\
    Deflater_getAdlerImpl handle u = None /\
    (forall recv buf off len flushStyle out_get e,
        ScopedByteArrayRW (pending u) buf = (Some out_get, e) ->
        Deflater_deflateImpl recv buf off len handle flushStyle u = None).
Proof.
  intros Hstrm.
  destruct (deflateEnd (stream n) (mem w)) as [[err s1] m1] eqn:Hstep.
  rewrite (endImpl_run w handle n err s1 m1 Hstrm Hstep).
  eexists. split; [reflexivity |].
  set (u := mk_World _ _ _ _ _).
  assert (Hgone : streams u !! toNativeZipStream handle = None)
    by apply lookup_delete_eq.
  destruct (accessors_dangling_run u handle Hgone) as (Hin & Hout & Hadler).
  repeat split; try done.
  - intros q Hq. subst u. cbn [streams]. now apply lookup_delete_ne.
  - now apply resetImpl_dangling_run.
  - intros. now apply setLevelsImpl_dangling_run.
  - now apply endImpl_dangling_run.
  - intros. eapply deflateImpl_dangling_run; eassumption.
Qed.

(** X7. Creating a stream and ending it through the returned handle gives
    back the native heap as it was: the object allocated by create is the one
    end frees, nothing is raised, and the engine has been asked to
    initialise and then to finalise that one stream. *)
Theorem createStream_then_endImpl_restores_heap w level strategy
        (noHeader : bool) p s1 m1 :
  0 < ptr_bits <= 64 ->
  1 < sizeof_NativeZipStream ->
  operator_new (streams w) = Some p ->
  placed (streams w) p ->
  deflateInit2 (stream NativeZipStream_ctor) level Z_DEFLATED
               (if noHeader then - DEF_WBITS else DEF_WBITS)
               DEF_MEM_LEVEL strategy (mem w) = (Z_OK, s1, m1) ->
  exists r u v,
    Deflater_createStream level strategy noHeader w = Some (r, u) /\
    Deflater_endImpl r u = Some (tt, v) /\
    streams v = streams w /\
    objects v = objects w /\
    pending v = pending w /\
    calls v = calls w ++ [Call_deflateInit2
                            (stream NativeZipStream_ctor) level Z_DEFLATED
                            (if noHeader then - DEF_WBITS else DEF_WBITS)
                            DEF_MEM_LEVEL strategy;
                          Call_deflateEnd s1].
Proof.
  intros Hbits Hsize Hnew Hplaced Hinit.
  rewrite (createStream_placed_run w level strategy noHeader p Z_OK s1 m1
             Hnew Hinit).
  cbv zeta. cbn [Z.eqb Z_OK].
  destruct (placed_below_top _ _ Hbits Hsize Hplaced) as [Hptr _].
  destruct Hplaced as (Hfree & _ & _).
  assert (Hback : toNativeZipStream (to_jlong p) = p)
    by (apply toNativeZipStream_to_jlong; lia).
  destruct (deflateEnd s1 m1) as [[err s2] m2] eqn:Hend.
  eexists _, _, _. split; [reflexivity |].
  erewrite endImpl_run;
    [| rewrite Hback; unfold stepped; cbn [streams];
       apply lookup_insert_eq
     | cbn [stream stepped mem]; exact Hend].
  split; [reflexivity |].
  rewrite Hback. unfold stepped. cbn [streams objects pending calls stream].
  repeat split.
  - now apply delete_insert_id.
  - now rewrite <- app_assoc.
Qed.

(** X8. A create call, whether it succeeds or fails, keeps every stream
    that was live before it and every Java field. *)
Theorem createStream_keeps_live_streams w level strategy (noHeader : bool) :
  (forall p, operator_new (streams w) = Some p -> placed (streams w) p) ->
  exists r u,
    Deflater_createStream level strategy noHeader w = Some (r, u) /\
    objects u = objects w /\
    (forall q n, streams w !! q = Some n -> streams u !! q = Some n).
Proof.
  intros Hplaced.
  destruct (operator_new (streams w)) as [p |] eqn:Hnew.
  - destruct (Hplaced p eq_refl) as (Hfree & _ & _).
    destruct (deflateInit2 (stream NativeZipStream_ctor) level Z_DEFLATED
                (if noHeader then - DEF_WBITS else DEF_WBITS)
                DEF_MEM_LEVEL strategy (mem w)) as [[err s1] m1] eqn:Hinit.
    rewrite (createStream_placed_run w level strategy noHeader p err s1 m1
               Hnew Hinit).
    cbv zeta. destruct (err =? Z_OK); eexists _, _;
      (split; [reflexivity |]); cbn [stepped streams objects];
      (split; [reflexivity |]); intros q n Hq.
    + rewrite lookup_insert_ne; [exact Hq | congruence].
    + rewrite delete_id; assumption.
  - rewrite (createStream_exhausted_run w level strategy noHeader Hnew).
    eexists _, _. repeat split. intros q n Hq. exact Hq.
Qed.

(** X9. Two successful create calls in a row return different handles, and
    afterwards each handle leads to its own stream. *)
Theorem createStream_twice_distinct_handles w
        levelA strategyA (noHeaderA : bool) pA sA mA
        levelB strategyB (noHeaderB : bool) pB sB mB :
  0 < ptr_bits <= 64 ->
  1 < sizeof_NativeZipStream ->
  operator_new (streams w) = Some pA ->
  placed (streams w) pA ->
  deflateInit2 (stream NativeZipStream_ctor) levelA Z_DEFLATED
               (if noHeaderA then - DEF_WBITS else DEF_WBITS)
               DEF_MEM_LEVEL strategyA (mem w) = (Z_OK, sA, mA) ->
  operator_new (<[pA := mk_NativeZipStream sA]> (streams w)) = Some pB ->
  placed (<[pA := mk_NativeZipStream sA]> (streams w)) pB ->
  deflateInit2 (stream NativeZipStream_ctor) levelB Z_DEFLATED
               (if noHeaderB then - DEF_WBITS else DEF_WBITS)
               DEF_MEM_LEVEL strategyB mA = (Z_OK, sB, mB) ->
  exists rA uA rB uB,
    Deflater_createStream levelA strategyA noHeaderA w = Some (rA, uA) /\
    Deflater_createStream levelB strategyB noHeaderB uA = Some (rB, uB) /\
    rA <> rB /\
    stream_of uB rA = Some sA /\
    stream_of uB rB = Some sB.
Proof.
  intros Hbits Hsize HnewA HplacedA HinitA HnewB HplacedB HinitB.
  rewrite (createStream_placed_run w levelA strategyA noHeaderA pA Z_OK sA mA
             HnewA HinitA).
  cbv zeta. cbn [Z.eqb Z_OK].
  eexists _, _. eexists _, _. split; [reflexivity |].
  erewrite createStream_placed_run;
    [| unfold stepped; cbn [streams]; exact HnewB
     | unfold stepped; cbn [mem]; exact HinitB].
  cbv zeta. cbn [Z.eqb Z_OK]. split; [reflexivity |].
  destruct (placed_below_top _ _ Hbits Hsize HplacedA) as [HptrA _].
  destruct (placed_below_top _ _ Hbits Hsize HplacedB) as [HptrB _].
  assert (HbackA : toNativeZipStream (to_jlong pA) = pA)
    by (apply toNativeZipStream_to_jlong; lia).
  assert (HbackB : toNativeZipStream (to_jlong pB) = pB)
    by (apply toNativeZipStream_to_jlong; lia).
  destruct HplacedB as (HfreeB & _ & _).
  assert (Hne : pB <> pA).
  { intros ->. rewrite lookup_insert_eq in HfreeB. discriminate. }
  unfold stream_of, stepped. cbn [streams]. rewrite HbackA, HbackB.
  repeat split.
  - intros Heq. apply Hne. rewrite <- HbackA, <- HbackB. now rewrite Heq.
  - rewrite lookup_insert_ne by exact Hne. now rewrite lookup_insert_eq.
  - now rewrite lookup_insert_eq.
Qed.


(** X11. A setLevels call that returns has touched no stream but the one
    behind the handle and no Java field; no stream appears or disappears,
    and the stream the engine was given has the input binding and the totals
    the caller's stream had. *)
Theorem setLevelsImpl_frame w level strategy handle x u :
  Deflater_setLevelsImpl level strategy handle w = Some (x, u) ->
  exists n,
    streams w !! toNativeZipStream handle = Some n /\
    objects u = objects w /\
    (forall q, q <> toNativeZipStream handle ->
               streams u !! q = streams w !! q) /\
    dom (streams u) = dom (streams w) /\
    exists s0,
      calls u = calls w ++ [Call_deflateParams s0 level strategy] /\
      next_in s0 = next_in (stream n) /\
      avail_in s0 = avail_in (stream n) /\
      total_in s0 = total_in (stream n) /\
      total_out s0 = total_out (stream n) /\
      adler s0 = adler (stream n) /\
      state s0 = state (stream n).
Proof.
  intros Hrun.
  destruct (streams w !! toNativeZipStream handle) as [n |] eqn:Hstrm;
    [| now rewrite (setLevelsImpl_dangling_run w level strategy handle Hstrm)
        in Hrun].
  destruct (deflateParams (cleared_output (stream n)) level strategy (mem w))
    as [[err s1] m1] eqn:Hstep.
  rewrite (setLevelsImpl_run w level strategy handle n err s1 m1 Hstrm Hstep)
    in Hrun.
  cbv zeta in Hrun. destruct x. injection Hrun as <-.
  exists n. split; [reflexivity |].
  destruct (err =? Z_OK); cbn [with_pending stepped calls streams objects];
    (split; [reflexivity |]);
    (split; [intros q Hq; now apply lookup_insert_ne |]);
    (split; [apply dom_insert_lookup_L; eauto |]);
    exists (cleared_output (stream n)); repeat split.
Qed.

Lemma to_jlong_small (x : Z) : - 2 ^ 63 <= x < 2 ^ 63 -> to_jlong x = x.
Proof.
  unfold to_jlong, wrap_signed. intros Hx.
  rewrite Z.mod_small; lia.
Qed.

(** On a live handle getTotalIn and getTotalOut return the engine's
    counters exactly, for counters below 2^63, and change nothing; asking
    twice gives the same answer. *)
Lemma accessors_return_engine_totals w handle n :
  streams w !! toNativeZipStream handle = Some n ->
  0 <= total_in (stream n) < 2 ^ 63 ->
  0 <= total_out (stream n) < 2 ^ 63 ->
  Deflater_getTotalInImpl handle w = Some (total_in (stream n), w) /\
  Deflater_getTotalOutImpl handle w = Some (total_out (stream n), w) /\
  bind (Deflater_getTotalInImpl handle)
       (fun a => bind (Deflater_getTotalInImpl handle)
                      (fun b => ret (a, b))) w
  = Some ((total_in (stream n), total_in (stream n)), w).
Proof.
  intros Hstrm Hin Hout.
  rewrite (getTotalInImpl_run w handle n Hstrm),
          (getTotalOutImpl_run w handle n Hstrm).
  rewrite !to_jlong_small by lia.
  repeat split.
  erewrite bind_run
    by (rewrite (getTotalInImpl_run w handle n Hstrm), to_jlong_small by lia;
        reflexivity).
  erewrite bind_run
    by (rewrite (getTotalInImpl_run w handle n Hstrm), to_jlong_small by lia;
        reflexivity).
  reflexivity.
Qed.

(** X12. getAdler returns the engine's 32-bit checksum as a jint: the
    result is congruent to the checksum modulo 2^32, it is negative exactly
    when the checksum has its top bit set, and the call changes nothing. *)
Theorem getAdlerImpl_truncates_to_jint w handle n :
  streams w !! toNativeZipStream handle = Some n ->
  0 <= adler (stream n) < 2 ^ 32 ->
  exists r,
    Deflater_getAdlerImpl handle w = Some (r, w) /\
    is_jint r /\
    r mod 2 ^ 32 = adler (stream n) /\
    (r < 0 <-> 2 ^ 31 <= adler (stream n)) /\
    (adler (stream n) < 2 ^ 31 -> r = adler (stream n)).
Proof.
  intros Hstrm Hadler.
  rewrite (getAdlerImpl_run w handle n Hstrm).
  eexists. split; [reflexivity |].
  split; [apply to_jint_range |].
  unfold to_jint, wrap_signed.
  destruct (Z_lt_ge_dec (adler (stream n)) (2 ^ 31)) as [Hlow | Hhigh].
  - rewrite (Z.mod_small (adler (stream n) + 2 ^ (32 - 1))) by lia.
    replace (adler (stream n) + 2 ^ (32 - 1) - 2 ^ (32 - 1))
      with (adler (stream n)) by ring.
    rewrite Z.mod_small by lia. repeat split; lia.
  - replace (adler (stream n) + 2 ^ (32 - 1))
      with ((adler (stream n) - 2 ^ 31) + 1 * 2 ^ 32) by lia.
    rewrite Z.mod_add by lia.
    rewrite (Z.mod_small (adler (stream n) - 2 ^ 31)) by lia.
    replace (adler (stream n) - 2 ^ 31 - 2 ^ (32 - 1))
      with (adler (stream n) + (-1) * 2 ^ 32) by lia.
    rewrite Z.mod_add by lia.
    rewrite Z.mod_small by lia. repeat split; lia.
Qed.

End LifecycleMore.

(** ** The further properties on the fixtures *)

Module MoreRuns.

Import Demo.


Lemma deflateImpl_frame_witness :
  exists r u,
    Deflater_deflateImpl (engine := store_engine) (runtime := demo_runtime)
                         7 3 0 64 4096 Z_FINISH pair_world = Some (r, u) /\
    streams u !! 4224 = Some (mk_NativeZipStream drained_stream) /\
    objects u !! 8 = Some (mk_DeflaterFields true 11).
Proof.
  destruct (Deflater_deflateImpl (engine := store_engine)
              (runtime := demo_runtime) 7 3 0 64 4096 Z_FINISH pair_world)
    as [[r u] |] eqn:Hrun; [| vm_compute in Hrun; discriminate].
  exists r, u. split; [reflexivity |].
  destruct (deflateImpl_frame
              (engine := store_engine) (runtime := demo_runtime)
              pair_world 7 3 0 64 4096 Z_FINISH r u Hrun)
    as (Hstreams & Hobjects & _ & _).
  split.
  - rewrite (Hstreams 4224) by discriminate. reflexivity.
  - rewrite (Hobjects 8) by discriminate. reflexivity.
Defined.

(** Object 8 is already finished; a step that ends in Z_OK leaves it so. *)
Lemma deflateImpl_finished_iff_stream_end_witness :
  (ScopedByteArrayRW (Runtime := demo_runtime) (pending pair_world) 3
   = (Some 196608, None) /\
   streams pair_world !! toNativeZipStream (runtime := demo_runtime) 4096
   = Some (mk_NativeZipStream fed_stream) /\
   objects pair_world !! 8 = Some (mk_DeflaterFields true 11) /\
   deflate (Engine := store_engine)
           (bound_output 196608 0 5 fed_stream) Z_NO_FLUSH tt
   = (Z_OK, mk_z_stream 200005 6 5 196613 0 5 1 BUSY_STATE, tt)) /\
  exists r u,
    Deflater_deflateImpl (engine := store_engine) (runtime := demo_runtime)
                         8 3 0 5 4096 Z_NO_FLUSH pair_world = Some (r, u) /\
    finished_of u 8 = Some true.
Proof.
  assert (H1 : ScopedByteArrayRW (Runtime := demo_runtime) (pending pair_world) 3
               = (Some 196608, None)) by reflexivity.
  assert (H2 : streams pair_world !! toNativeZipStream (runtime := demo_runtime) 4096
               = Some (mk_NativeZipStream fed_stream)) by reflexivity.
  assert (H3 : objects pair_world !! 8 = Some (mk_DeflaterFields true 11))
    by reflexivity.
  assert (H4 : deflate (Engine := store_engine)
                       (bound_output 196608 0 5 fed_stream) Z_NO_FLUSH tt
               = (Z_OK, mk_z_stream 200005 6 5 196613 0 5 1 BUSY_STATE, tt))
    by reflexivity.
  split; [repeat split; assumption |].
  destruct (deflateImpl_finished_iff_stream_end
              (engine := store_engine) (runtime := demo_runtime)
              pair_world 8 3 0 5 4096 Z_NO_FLUSH 196608 None
              (mk_NativeZipStream fed_stream) (mk_DeflaterFields true 11)
              Z_OK _ tt H1 H2 H3 H4)
    as (r & u & Hrun & Hiff).
  exists r, u. split; [exact Hrun |].
  apply Hiff. left. reflexivity.
Defined.

Lemma deflateImpl_result_within_len_witness :
  (ScopedByteArrayRW (Runtime := demo_runtime) (pending fed_world) 3
   = (Some 196608, None) /\
   streams fed_world !! toNativeZipStream (runtime := demo_runtime) 4096
   = Some (mk_NativeZipStream fed_stream) /\
   objects fed_world !! 7 = Some (mk_DeflaterFields false 0) /\
   deflate (Engine := store_engine)
           (bound_output 196608 0 5 fed_stream) Z_NO_FLUSH tt
   = (Z_OK, mk_z_stream 200005 6 5 196613 0 5 1 BUSY_STATE, tt) /\
   0 <= 5 < 2 ^ 31 /\
   196608 + 0 <= 196613 <= 196608 + 0 + 5) /\
  exists r u,
    Deflater_deflateImpl (engine := store_engine) (runtime := demo_runtime)
                         7 3 0 5 4096 Z_NO_FLUSH fed_world = Some (r, u) /\
    r = 5.
Proof.
  assert (H1 : ScopedByteArrayRW (Runtime := demo_runtime) (pending fed_world) 3
               = (Some 196608, None)) by reflexivity.
  assert (H2 : streams fed_world !! toNativeZipStream (runtime := demo_runtime) 4096
               = Some (mk_NativeZipStream fed_stream)) by reflexivity.
  assert (H3 : objects fed_world !! 7 = Some (mk_DeflaterFields false 0))
    by reflexivity.
  assert (H4 : deflate (Engine := store_engine)
                       (bound_output 196608 0 5 fed_stream) Z_NO_FLUSH tt
               = (Z_OK, mk_z_stream 200005 6 5 196613 0 5 1 BUSY_STATE, tt))
    by reflexivity.
  assert (H5 : 0 <= 5 < 2 ^ 31) by lia.
  assert (H6 : 196608 + 0 <= 196613 <= 196608 + 0 + 5) by lia.
  split; [repeat split; try assumption; lia |].
  destruct (deflateImpl_result_within_len
              (engine := store_engine) (runtime := demo_runtime)
              fed_world 7 3 0 5 4096 Z_NO_FLUSH 196608 None
              (mk_NativeZipStream fed_stream) (mk_DeflaterFields false 0)
              Z_OK _ tt H1 H2 H3 H4 (or_introl eq_refl) H5 H6)
    as (r & u & Hrun & Hr & _).
  exists r, u. split; [exact Hrun | exact Hr].
Defined.

(** Five bytes without flush, then the remaining six with Z_FINISH. *)
Lemma deflateImpl_twice_accumulates_witness :
  (ScopedByteArrayRW (Runtime := demo_runtime) (pending fed_world) 3
   = (Some 196608, None) /\
   streams fed_world !! toNativeZipStream (runtime := demo_runtime) 4096
   = Some (mk_NativeZipStream fed_stream) /\
   objects fed_world !! 7 = Some (mk_DeflaterFields false 0) /\
   deflate (Engine := store_engine)
           (bound_output 196608 0 5 fed_stream) Z_NO_FLUSH tt
   = (Z_OK, mk_z_stream 200005 6 5 196613 0 5 1 BUSY_STATE, tt) /\
   ScopedByteArrayRW (Runtime := demo_runtime) None 3 = (Some 196608, None) /\
   deflate (Engine := store_engine)
           (bound_output 196608 0 64
                         (mk_z_stream 200005 6 5 196613 0 5 1 BUSY_STATE))
           Z_FINISH tt
   = (Z_STREAM_END, mk_z_stream 200011 0 11 196614 58 11 1 FINISH_STATE, tt)) /\
  exists rA uA rB uB,
    Deflater_deflateImpl (engine := store_engine) (runtime := demo_runtime)
                         7 3 0 5 4096 Z_NO_FLUSH fed_world = Some (rA, uA) /\
    Deflater_deflateImpl (engine := store_engine) (runtime := demo_runtime)
                         7 3 0 64 4096 Z_FINISH uA = Some (rB, uB) /\
    inRead_of uB 7 = Some 11.
Proof.
  assert (H1 : ScopedByteArrayRW (Runtime := demo_runtime) (pending fed_world) 3
               = (Some 196608, None)) by reflexivity.
  assert (H2 : streams fed_world !! toNativeZipStream (runtime := demo_runtime) 4096
               = Some (mk_NativeZipStream fed_stream)) by reflexivity.
  assert (H3 : objects fed_world !! 7 = Some (mk_DeflaterFields false 0))
    by reflexivity.
  assert (H4 : deflate (Engine := store_engine)
                       (bound_output 196608 0 5 fed_stream) Z_NO_FLUSH tt
               = (Z_OK, mk_z_stream 200005 6 5 196613 0 5 1 BUSY_STATE, tt))
    by reflexivity.
  assert (H5 : ScopedByteArrayRW (Runtime := demo_runtime) None 3
               = (Some 196608, None)) by reflexivity.
  assert (H6 : deflate (Engine := store_engine)
                 (bound_output 196608 0 64
                    (mk_z_stream 200005 6 5 196613 0 5 1 BUSY_STATE))
                 Z_FINISH tt
               = (Z_STREAM_END,
                  mk_z_stream 200011 0 11 196614 58 11 1 FINISH_STATE, tt))
    by reflexivity.
  split; [repeat split; assumption |].
  destruct (deflateImpl_twice_accumulates
              (engine := store_engine) (runtime := demo_runtime)
              fed_world 7 4096 3 0 5 Z_NO_FLUSH 196608 None
              3 0 64 Z_FINISH 196608 None
              (mk_NativeZipStream fed_stream) (mk_DeflaterFields false 0)
              Z_OK _ tt Z_STREAM_END _ tt H1 H2 H3 H4 eq_refl H5 H6 eq_refl)
    as (rA & uA & rB & uB & HrunA & HrunB & Hin & _).
  exists rA, uA, rB, uB. split; [exact HrunA |]. split; [exact HrunB |].
  rewrite Hin. reflexivity.
Defined.

Lemma endImpl_invalidates_handle_witness :
  streams fed_world !! toNativeZipStream (runtime := demo_runtime) 4096
  = Some (mk_NativeZipStream fed_stream) /\
  exists u,
    Deflater_endImpl (engine := store_engine) (runtime := demo_runtime)
                     4096 fed_world = Some (tt, u) /\
    streams u = ∅ /\
    Deflater_resetImpl (engine := store_engine) (runtime := demo_runtime)
                       4096 u = None /\
    Deflater_endImpl (engine := store_engine) (runtime := demo_runtime)
                     4096 u = None.
Proof.
  assert (H1 : streams fed_world !! toNativeZipStream (runtime := demo_runtime) 4096
               = Some (mk_NativeZipStream fed_stream)) by reflexivity.
  split; [exact H1 |].
  destruct (endImpl_invalidates_handle
              (engine := store_engine) (runtime := demo_runtime)
              fed_world 4096 (mk_NativeZipStream fed_stream) H1)
    as (u & Hrun & _ & _ & Hstreams & _ & _ & Hreset & _ & Hend & _).
  exists u. split; [exact Hrun |]. split; [| split; assumption].
  rewrite Hstreams. reflexivity.
Defined.

Lemma createStream_then_endImpl_restores_heap_witness :
  (0 < ptr_bits (Runtime := demo_runtime) <= 64 /\
   1 < sizeof_NativeZipStream (Runtime := demo_runtime) /\
   operator_new (Runtime := demo_runtime) (streams fresh_world) = Some 4096 /\
   placed (runtime := demo_runtime) (streams fresh_world) 4096 /\
   deflateInit2 (Engine := store_engine) (stream demo_ctor) 6 Z_DEFLATED
                DEF_WBITS DEF_MEM_LEVEL 0 tt
   = (Z_OK, mk_z_stream 0 0 0 0 0 0 1 INIT_STATE, tt)) /\
  exists r u v,
    Deflater_createStream (engine := store_engine) (runtime := demo_runtime)
                          6 0 false fresh_world = Some (r, u) /\
    Deflater_endImpl (engine := store_engine) (runtime := demo_runtime)
                     r u = Some (tt, v) /\
    streams v = ∅.
Proof.
  assert (H1 : 0 < ptr_bits (Runtime := demo_runtime) <= 64) by (simpl; lia).
  assert (H2 : 1 < sizeof_NativeZipStream (Runtime := demo_runtime))
    by (simpl; lia).
  assert (H3 : operator_new (Runtime := demo_runtime) (streams fresh_world)
               = Some 4096) by reflexivity.
  assert (H4 : placed (runtime := demo_runtime) (streams fresh_world) 4096)
    by (split; [reflexivity | simpl; lia]).
  assert (H5 : deflateInit2 (Engine := store_engine) (stream demo_ctor) 6
                            Z_DEFLATED DEF_WBITS DEF_MEM_LEVEL 0 tt
               = (Z_OK, mk_z_stream 0 0 0 0 0 0 1 INIT_STATE, tt))
    by reflexivity.
  split; [repeat split; try assumption; simpl; lia |].
  destruct (createStream_then_endImpl_restores_heap
              (engine := store_engine) (runtime := demo_runtime)
              fresh_world 6 0 false 4096 _ tt H1 H2 H3 H4 H5)
    as (r & u & v & Hcreate & Hend & Hstreams & _).
  exists r, u, v. repeat split; assumption.
Defined.

(** Creating a second stream next to the one at 4096. *)
Lemma createStream_keeps_live_streams_witness :
  (operator_new (Runtime := demo_runtime) (streams fed_world) = Some 4224 /\
   placed (runtime := demo_runtime) (streams fed_world) 4224) /\
  exists r u,
    Deflater_createStream (engine := store_engine) (runtime := demo_runtime)
                          9 0 true fed_world = Some (r, u) /\
    streams u !! 4096 = Some (mk_NativeZipStream fed_stream).
Proof.
  assert (H1 : operator_new (Runtime := demo_runtime) (streams fed_world)
               = Some 4224) by reflexivity.
  assert (H2 : placed (runtime := demo_runtime) (streams fed_world) 4224)
    by (split; [reflexivity | simpl; lia]).
  split; [split; assumption |].
  destruct (createStream_keeps_live_streams
              (engine := store_engine) (runtime := demo_runtime)
              fed_world 9 0 true)
    as (r & u & Hrun & _ & Hkeep).
  { intros p Hp. rewrite H1 in Hp. injection Hp as <-. exact H2. }
  exists r, u. split; [exact Hrun |].
  apply Hkeep. reflexivity.
Defined.

Lemma createStream_twice_distinct_handles_witness :
  exists rA uA rB uB,
    Deflater_createStream (engine := store_engine) (runtime := demo_runtime)
                          6 0 false fresh_world = Some (rA, uA) /\
    Deflater_createStream (engine := store_engine) (runtime := demo_runtime)
                          9 0 true uA = Some (rB, uB) /\
    rA <> rB /\
    stream_of (runtime := demo_runtime) uB rA
    = Some (mk_z_stream 0 0 0 0 0 0 1 INIT_STATE) /\
    stream_of (runtime := demo_runtime) uB rB
    = Some (mk_z_stream 0 0 0 0 0 0 1 INIT_STATE).
Proof.
  assert (H1 : 0 < ptr_bits (Runtime := demo_runtime) <= 64) by (simpl; lia).
  assert (H2 : 1 < sizeof_NativeZipStream (Runtime := demo_runtime))
    by (simpl; lia).
  assert (H3 : operator_new (Runtime := demo_runtime) (streams fresh_world)
               = Some 4096) by reflexivity.
  assert (H4 : placed (runtime := demo_runtime) (streams fresh_world) 4096)
    by (split; [reflexivity | simpl; lia]).
  assert (H5 : deflateInit2 (Engine := store_engine) (stream demo_ctor) 6
                            Z_DEFLATED DEF_WBITS DEF_MEM_LEVEL 0 tt
               = (Z_OK, mk_z_stream 0 0 0 0 0 0 1 INIT_STATE, tt))
    by reflexivity.
  assert (H6 : operator_new (Runtime := demo_runtime)
                 (<[4096 := mk_NativeZipStream
                              (mk_z_stream 0 0 0 0 0 0 1 INIT_STATE)]>
                    (streams fresh_world)) = Some 4224) by reflexivity.
  assert (H7 : placed (runtime := demo_runtime)
                 (<[4096 := mk_NativeZipStream
                              (mk_z_stream 0 0 0 0 0 0 1 INIT_STATE)]>
                    (streams fresh_world)) 4224)
    by (split; [reflexivity | simpl; lia]).
  assert (H8 : deflateInit2 (Engine := store_engine) (stream demo_ctor) 9
                            Z_DEFLATED (- DEF_WBITS) DEF_MEM_LEVEL 0 tt
               = (Z_OK, mk_z_stream 0 0 0 0 0 0 1 INIT_STATE, tt))
    by reflexivity.
  exact (createStream_twice_distinct_handles
           (engine := store_engine) (runtime := demo_runtime)
           fresh_world 6 0 false 4096 _ tt 9 0 true 4224 _ tt
           H1 H2 H3 H4 H5 H6 H7 H8).
Defined.


Lemma setLevelsImpl_frame_witness :
  exists u,
    Deflater_setLevelsImpl (engine := store_engine) (runtime := demo_runtime)
                           9 0 4224 pair_world = Some (tt, u) /\
    objects u = objects pair_world /\
    streams u !! 4096 = Some (mk_NativeZipStream fed_stream).
Proof.
  destruct (Deflater_setLevelsImpl (engine := store_engine)
              (runtime := demo_runtime) 9 0 4224 pair_world)
    as [[[] u] |] eqn:Hrun; [| vm_compute in Hrun; discriminate].
  exists u. split; [reflexivity |].
  destruct (setLevelsImpl_frame
              (engine := store_engine) (runtime := demo_runtime)
              pair_world 9 0 4224 tt u Hrun)
    as (n & _ & Hobjects & Hothers & _).
  split; [exact Hobjects |].
  rewrite (Hothers 4096) by discriminate. reflexivity.
Defined.

(** The checksum 4000000000 comes back as -294967296. *)
Lemma getAdlerImpl_truncates_to_jint_witness :
  (streams summed_world !! toNativeZipStream (runtime := demo_runtime) 4096
   = Some (mk_NativeZipStream summed_stream) /\
   0 <= adler summed_stream < 2 ^ 32) /\
  exists r,
    Deflater_getAdlerImpl (runtime := demo_runtime) 4096 summed_world
    = Some (r, summed_world) /\
    r = -294967296 /\ r mod 2 ^ 32 = 4000000000.
Proof.
  assert (H1 : streams summed_world !! toNativeZipStream (runtime := demo_runtime) 4096
               = Some (mk_NativeZipStream summed_stream)) by reflexivity.
  assert (H2 : 0 <= adler summed_stream < 2 ^ 32) by (simpl; lia).
  split; [split; assumption |].
  destruct (getAdlerImpl_truncates_to_jint
              (runtime := demo_runtime)
              summed_world 4096 (mk_NativeZipStream summed_stream) H1 H2)
    as (r & Hrun & _ & Hmod & _).
  exists r. split; [exact Hrun |]. split; [| exact Hmod].
  assert (Hval : Deflater_getAdlerImpl (runtime := demo_runtime) 4096 summed_world
                 = Some (-294967296, summed_world)) by reflexivity.
  rewrite Hrun in Hval. now injection Hval.
Defined.

End MoreRuns.
